(** * Sensor data backend: session buffer, CSV export, Firestore batches
      and the Dublin Bikes poller

    A shallow embedding of [server.js], [firebaseConfig.js] and
    [dublinBikesFetcher.js].  Module-level [let] variables become explicit
    state records, the clock, the process environment, the upstream API and
    the Firestore backend become explicit inputs, and [try]/[catch] becomes
    a sum type.  Requests are served in their order of arrival; the one
    handler that suspends, POST /api/data, changes the buffer before it
    does. *)

From Stdlib Require Import ZArith List String Ascii Bool Lia Permutation Sorted.
From Stdlib Require Import Numbers.DecimalString DecimalZ DecimalPos.
From Equations Require Import Equations.
Import ListNotations.

Local Open Scope string_scope.
Local Open Scope Z_scope.

(** ** The JavaScript built-ins the handlers call *)

Module Js.

(** Values that appear as properties of the object literals the code
    builds. *)
Inductive value :=
| VUndefined
| VNull
| VBool (b : bool)
| VNum (n : Z)
| VStr (s : string).

(** An object literal [{ k1: v1, k2: v2 }], in the order it is written. *)
Definition object := list (string * value).

(** Property read [o.k]: [undefined] when the object has no such key. *)
Fixpoint get (k : string) (o : object) : value :=
  match o with
  | [] => VUndefined
  | (k', v) :: rest => if String.eqb k k' then v else get k rest
  end.

(** ToBoolean. *)
Definition truthy (v : value) : bool :=
  match v with
  | VUndefined | VNull => false
  | VBool b => b
  | VNum n => negb (n =? 0)
  | VStr s => negb (String.eqb s "")
  end.

Definition newline : string := String (ascii_of_nat 10) EmptyString.

(** Number::toString of an integer below 10^21 in magnitude. *)
Definition string_of_Z (z : Z) : string :=
  NilZero.string_of_int (Z.to_int z).

Definition string_of_N (n : N) : string :=
  NilZero.string_of_uint (N.to_uint n).

Fixpoint repeat_char (c : ascii) (n : nat) : string :=
  match n with
  | O => EmptyString
  | S n' => String c (repeat_char c n')
  end.

(** [String.prototype.padStart(width, '0')]. *)
Definition pad_start (width : nat) (s : string) : string :=
  repeat_char "0"%char (width - String.length s) ++ s.

(** [Array.prototype.join(sep)] on an array of strings. *)
Fixpoint join (sep : string) (cells : list string) : string :=
  match cells with
  | [] => ""
  | [c] => c
  | c :: rest => c ++ sep ++ join sep rest
  end.

(** A finite JavaScript number other than a timestamp, held as the decimal
    Number::toString prints: the value is [digits * 10^exponent], negated
    when [negative].  The handlers never do arithmetic on these; they test
    them for truthiness and print them. *)
Record number := {
  negative : bool;
  digits : N;
  exponent : Z
}.

(** ToBoolean of a number: false for +0 and -0 (NaN cannot come out of
    JSON). *)
Definition number_truthy (x : number) : bool :=
  negb (N.eqb (digits x) 0).

Fixpoint string_rev_acc (s acc : string) : string :=
  match s with
  | EmptyString => acc
  | String c s' => string_rev_acc s' (String c acc)
  end.

Definition string_rev (s : string) : string := string_rev_acc s "".

Fixpoint drop_leading_zeros (s : string) : string :=
  match s with
  | String "0"%char s' => drop_leading_zeros s'
  | _ => s
  end.

Definition drop_trailing_zeros (s : string) : string :=
  string_rev (drop_leading_zeros (string_rev s)).

(** Number::toString, radix 10.  [s] is the digit string without trailing
    zeros, [k] its length and [n] the position of the decimal point, as in
    the language definition. *)
Definition number_to_string (x : number) : string :=
  if N.eqb (digits x) 0 then "0"
  else
    let all := string_of_N (digits x) in
    let s := drop_trailing_zeros all in
    let k := Z.of_nat (String.length s) in
    let n := Z.of_nat (String.length all) + exponent x in
    let sign := if negative x then "-" else "" in
    let body :=
      if (k <=? n) && (n <=? 21) then
        s ++ repeat_char "0"%char (Z.to_nat (n - k))
      else if (0 <? n) && (n <=? 21) then
        substring 0 (Z.to_nat n) s ++ "." ++
        substring (Z.to_nat n) (Z.to_nat (k - n)) s
      else if (-6 <? n) && (n <=? 0) then
        "0." ++ repeat_char "0"%char (Z.to_nat (- n)) ++ s
      else
        let e := n - 1 in
        let esign := if e <? 0 then "-" else "+" in
        let mant :=
          if k =? 1 then s
          else substring 0 1 s ++ "." ++ substring 1 (Z.to_nat (k - 1)) s in
        mant ++ "e" ++ esign ++ string_of_Z (Z.abs e) in
    sign ++ body.

(** [(ms / 1000).toFixed(3)] for an integer number of milliseconds [ms].
    The quotient is the double nearest to [ms / 1000]; below
    [2^43 * 1000] milliseconds that double is within [0.0005] of the exact
    quotient, so the three decimals printed are the digits of [ms]. *)
Definition to_fixed_3 (ms : Z) : string :=
  let a := Z.abs ms in
  (if ms <? 0 then "-" else "") ++
  string_of_Z (a / 1000) ++ "." ++ pad_start 3 (string_of_Z (a mod 1000)).

(** Largest time value of a [Date]. *)
Definition max_time_value : Z := 8640000000000000.

Definition ms_per_day : Z := 86400000.

(** Year, month and day of the proleptic Gregorian calendar for a day
    number counted from 1970-01-01. *)
Definition civil_from_days (day : Z) : Z * Z * Z :=
  let z := day + 719468 in
  let era := z / 146097 in
  let doe := z - era * 146097 in
  let yoe := (doe - doe / 1460 + doe / 36524 - doe / 146096) / 365 in
  let doy := doe - (365 * yoe + yoe / 4 - yoe / 100) in
  let mp := (5 * doy + 2) / 153 in
  let d := doy - (153 * mp + 2) / 5 + 1 in
  let m := if mp <? 10 then mp + 3 else mp - 9 in
  let y := yoe + era * 400 + (if m <=? 2 then 1 else 0) in
  (y, m, d).

Definition iso_year (y : Z) : string :=
  if (0 <=? y) && (y <=? 9999) then pad_start 4 (string_of_Z y)
  else (if y <? 0 then "-" else "+") ++ pad_start 6 (string_of_Z (Z.abs y)).

(** The ISO 8601 text of a time value. *)
Definition iso_string (t : Z) : string :=
  let day := t / ms_per_day in
  let ms := t mod ms_per_day in
  let '(y, m, d) := civil_from_days day in
  iso_year y ++ "-" ++ pad_start 2 (string_of_Z m) ++ "-" ++
  pad_start 2 (string_of_Z d) ++ "T" ++
  pad_start 2 (string_of_Z (ms / 3600000)) ++ ":" ++
  pad_start 2 (string_of_Z (ms / 60000 mod 60)) ++ ":" ++
  pad_start 2 (string_of_Z (ms / 1000 mod 60)) ++ "." ++
  pad_start 3 (string_of_Z (ms mod 1000)) ++ "Z".

(** [new Date(t).toISOString()]: [None] stands for the RangeError
    "Invalid time value" thrown outside the range of time values. *)
Definition toISOString (t : Z) : option string :=
  if max_time_value <? Z.abs t then None else Some (iso_string t).

(** [new Date().toISOString()]: the current time is always a time value,
    so this call cannot throw. *)
Definition now_iso_string (now : Z) : string := iso_string now.

(** String conversion inside a template literal. *)
Definition template (v : value) : string :=
  match v with
  | VUndefined => "undefined"
  | VNull => "null"
  | VBool true => "true"
  | VBool false => "false"
  | VNum n => string_of_Z n
  | VStr s => s
  end.

(** White space and line terminators that [parseInt] skips.  A string
    holds the UTF-8 bytes of the JavaScript string, so the ones within
    ASCII (tab, line feed, vertical tab, form feed, carriage return and
    space) take one character, U+00A0 takes two, and U+1680, U+2000 to
    U+200A, U+2028, U+2029, U+202F, U+205F, U+3000 and U+FEFF take
    three. *)
Definition is_white_space (c : ascii) : bool :=
  let n := nat_of_ascii c in
  (Nat.eqb n 32 || (Nat.leb 9 n && Nat.leb n 13))%bool.

Definition is_white_space_2 (c1 c2 : ascii) : bool :=
  (Nat.eqb (nat_of_ascii c1) 194 && Nat.eqb (nat_of_ascii c2) 160)%bool.

Definition is_white_space_3 (c1 c2 c3 : ascii) : bool :=
  let n1 := nat_of_ascii c1 in
  let n2 := nat_of_ascii c2 in
  let n3 := nat_of_ascii c3 in
  ((Nat.eqb n1 225 && Nat.eqb n2 154 && Nat.eqb n3 128) ||
   (Nat.eqb n1 226 && Nat.eqb n2 128 &&
    ((Nat.leb 128 n3 && Nat.leb n3 138) ||
     Nat.eqb n3 168 || Nat.eqb n3 169 || Nat.eqb n3 175)) ||
   (Nat.eqb n1 226 && Nat.eqb n2 129 && Nat.eqb n3 159) ||
   (Nat.eqb n1 227 && Nat.eqb n2 128 && Nat.eqb n3 128) ||
   (Nat.eqb n1 239 && Nat.eqb n2 187 && Nat.eqb n3 191))%bool.

(** The first byte of a character beyond ASCII. *)
Definition is_lead_byte (c : ascii) : bool :=
  Nat.leb 128 (nat_of_ascii c).

Fixpoint trim_start (s : string) : string :=
  match s with
  | String c1 s1 =>
      if is_white_space c1 then trim_start s1
      else if is_lead_byte c1 then
        match s1 with
        | String c2 s2 =>
            if is_white_space_2 c1 c2 then trim_start s2
            else
              match s2 with
              | String c3 s3 =>
                  if is_white_space_3 c1 c2 c3 then trim_start s3 else s
              | EmptyString => s
              end
        | EmptyString => s
        end
      else s
  | EmptyString => s
  end.

(** Value of a character as a digit of radix [r], if it is one. *)
Definition digit_value (r : Z) (c : ascii) : option Z :=
  let n := Z.of_nat (nat_of_ascii c) in
  let v :=
    if (48 <=? n) && (n <=? 57) then Some (n - 48)
    else if (97 <=? n) && (n <=? 122) then Some (n - 87)
    else if (65 <=? n) && (n <=? 90) then Some (n - 55)
    else None in
  match v with
  | Some d => if d <? r then Some d else None
  | None => None
  end.

(** Reads the longest prefix of radix-[r] digits; [None] when it is empty. *)
Fixpoint read_digits (r : Z) (s : string) (acc : option Z) : option Z :=
  match s with
  | EmptyString => acc
  | String c s' =>
      match digit_value r c with
      | Some d =>
          read_digits r s'
            (Some (match acc with Some a => a * r + d | None => d end))
      | None => acc
      end
  end.

(** The radix of the digits and the digits themselves: a leading "0x" or
    "0X" selects radix 16 and is removed. *)
Definition strip_prefix (s : string) : Z * string :=
  match s with
  | String "0"%char (String "x"%char s') => (16, s')
  | String "0"%char (String "X"%char s') => (16, s')
  | _ => (10, s)
  end.

(** The value of the digits that follow the sign. *)
Definition parse_unsigned (s : string) : option Z :=
  let '(r, digits) := strip_prefix s in
  read_digits r digits None.

(** The mathematical integer [parseInt(s)] reads when it is given no
    radix; [None] when there is no digit to read. *)
Definition math_int (input : string) : option Z :=
  let s := trim_start input in
  match s with
  | String "-"%char s' => option_map (Z.mul (-1)) (parse_unsigned s')
  | String "+"%char s' => parse_unsigned s'
  | _ => parse_unsigned s
  end.

(** A Number without a fraction: an integer a double holds, or an
    infinity. *)
Inductive integral :=
  | Finite (n : Z)
  | Infinite (negative : bool).

(** The Number of an integer: the nearest double, the one with the even
    significand when two are as near, and an infinity from [2^1024] on.
    A double has 53 significant bits, so every integer up to [2^53] in
    magnitude is its own double. *)
Definition to_double (n : Z) : integral :=
  let a := Z.abs n in
  if a <=? 2 ^ 53 then Finite n
  else
    let ulp := 2 ^ (Z.log2 a - 52) in
    let q := a / ulp in
    let r := a mod ulp in
    let up := ((ulp <? 2 * r) || ((2 * r =? ulp) && Z.odd q))%bool in
    let m := (if up then q + 1 else q) * ulp in
    if 2 ^ 1024 <=? m then Infinite (n <? 0) else Finite (Z.sgn n * m).

(** [parseInt(s)] with no radix argument; [None] is NaN. *)
Definition parseInt (input : string) : option integral :=
  option_map to_double (math_int input).



End Js.

(** ** Data model *)

(** One reading pushed by the device.  [timestamp] is in epoch milliseconds;
    the ten measurements are optional ([None]: the property is missing). *)
Record SensorRecord := {
  timestamp : Z;
  latitude : option Js.number;
  longitude : option Js.number;
  altitude : option Js.number;
  speed : option Js.number;
  accuracy : option Js.number;
  heading : option Js.number;
  accel_x : option Js.number;
  accel_y : option Js.number;
  accel_z : option Js.number;
  accel_magnitude : option Js.number
}.

Record Position := { lat : Js.number; lng : Js.number }.

(** A station object as the JCDecaux API returns it. *)
Record UpstreamStation := {
  up_number : Z;
  up_name : string;
  up_address : string;
  up_position : option Position;
  up_banking : option bool;
  up_bonus : option bool;
  up_bike_stands : option Z;
  up_available_bike_stands : option Z;
  up_available_bikes : option Z;
  up_status : option string;
  up_last_update : option Z
}.

(** A station as [fetchDublinBikes] stores it. *)
Record StationRecord := {
  station_number : Z;
  station_name : string;
  address : string;
  position : Position;
  banking : bool;
  bonus : bool;
  bike_stands : Z;
  available_bike_stands : Z;
  available_bikes : Z;
  status : string;
  last_update : option Z
}.

(** Outcome of a block that may throw: [Throw] carries [error.message]. *)
Inductive Completion (A : Type) :=
| Normal (a : A)
| Throw (message : string).
Arguments Normal {A} a.
Arguments Throw {A} message.

(** ** firebaseConfig.js *)

Module FirebaseConfig.

(** [admin.firestore.FieldValue.serverTimestamp()]. *)
Inductive FieldValue := ServerTimestamp.

Inductive Payload :=
| SensorPayload (r : SensorRecord)
| StationPayload (s : StationRecord).

(** One [batch.set(docRef, {...})]: the document goes to a fresh,
    auto-named reference of [collection]. *)
Record Write := {
  collection : string;
  data : Payload;
  fetched_at : option Z;
  created_at : FieldValue
}.

(** What the code cannot decide: whether the service-account key loads,
    and whether Firestore accepts the commit it receives as call number
    [n] (counted from 0); [Some message] is a rejection. *)
Record Backend := {
  key_file_error : option string;
  rejects : nat -> list Write -> option string
}.

(** [firebaseInitialized], the batches Firestore holds (each committed
    atomically, oldest first) and the number of [commit()] calls made. *)
Record Firestore := {
  firebaseInitialized : bool;
  committed : list (list Write);
  commit_calls : nat
}.

Definition initial_firestore : Firestore :=
  {| firebaseInitialized := false; committed := []; commit_calls := 0 |}.

Definition initializeFirebase (be : Backend) (fs : Firestore)
  : Completion unit * Firestore :=
  if firebaseInitialized fs then (Normal tt, fs)
  else
    match key_file_error be with
    | Some e => (Throw e, fs)
    | None =>
        (Normal tt,
         {| firebaseInitialized := true;
            committed := committed fs;
            commit_calls := commit_calls fs |})
    end.

Definition getFirestore (be : Backend) (fs : Firestore)
  : Completion unit * Firestore :=
  if negb (firebaseInitialized fs) then initializeFirebase be fs
  else (Normal tt, fs).

(** [await batch.commit()]: all the writes of the batch or none. *)
Definition commit (be : Backend) (fs : Firestore) (batch : list Write)
  : Completion unit * Firestore :=
  match rejects be (commit_calls fs) batch with
  | Some e =>
      (Throw e,
       {| firebaseInitialized := firebaseInitialized fs;
          committed := committed fs;
          commit_calls := S (commit_calls fs) |})
  | None =>
      (Normal tt,
       {| firebaseInitialized := firebaseInitialized fs;
          committed := committed fs ++ [batch];
          commit_calls := S (commit_calls fs) |})
  end.

Definition BATCH_SIZE : nat := 500.

(** [array.slice(i, j)] for [0 <= i <= j]. *)
Definition slice {A : Type} (i j : nat) (l : list A) : list A :=
  firstn (j - i) (skipn i l).

Definition sensor_write (dataPoint : SensorRecord) : Write :=
  {| collection := "sensor_data";
     data := SensorPayload dataPoint;
     fetched_at := None;
     created_at := ServerTimestamp |}.

(** An element of [results]. *)
Record ChunkResult := { chunk_success : bool; count : nat }.

(** The [for (let i = 0; i < dataPoints.length; i += BATCH_SIZE)] loop of
    [addSensorDataBatch], entered at index [i]. *)
Equations? batch_loop (be : Backend) (dataPoints : list SensorRecord)
    (i : nat) (results : list ChunkResult) (fs : Firestore)
  : Completion (list ChunkResult) * Firestore
  by wf (List.length dataPoints - i)%nat lt :=
  batch_loop be dataPoints i results fs with lt_dec i (List.length dataPoints) := {
    | right _ => (Normal results, fs)
    | left _ with commit be fs
                    (map sensor_write
                       (slice i (i + BATCH_SIZE) dataPoints)) := {
        | (Throw e, fs') => (Throw e, fs')
        | (Normal _, fs') =>
            batch_loop be dataPoints (i + BATCH_SIZE)
              (results ++
               [{| chunk_success := true;
                   count := List.length (slice i (i + BATCH_SIZE) dataPoints) |}])
              fs' } }.
Proof. unfold BATCH_SIZE. lia. Qed.

Definition addSensorDataBatch (be : Backend) (fs : Firestore)
    (dataPoints : list SensorRecord) : Js.object * Firestore :=
  match getFirestore be fs with
  | (Throw e, fs1) =>
      ([("success", Js.VBool false); ("error", Js.VStr e)], fs1)
  | (Normal _, fs1) =>
      match batch_loop be dataPoints 0 [] fs1 with
      | (Throw e, fs2) =>
          ([("success", Js.VBool false); ("error", Js.VStr e)], fs2)
      | (Normal results, fs2) =>
          ([("success", Js.VBool true);
            ("totalAdded", Js.VNum (Z.of_nat (List.length dataPoints)));
            ("batches", Js.VNum (Z.of_nat (List.length results)))], fs2)
      end
  end.

Definition station_write (now : Z) (station : StationRecord) : Write :=
  {| collection := "dublin_bikes";
     data := StationPayload station;
     fetched_at := Some now;
     created_at := ServerTimestamp |}.

(** [now] is the reading of [new Date()]. *)
Definition addDublinBikesData (be : Backend) (fs : Firestore) (now : Z)
    (stationsData : list StationRecord) : Js.object * Firestore :=
  match getFirestore be fs with
  | (Throw e, fs1) =>
      ([("success", Js.VBool false); ("error", Js.VStr e)], fs1)
  | (Normal _, fs1) =>
      match commit be fs1 (map (station_write now) stationsData) with
      | (Throw e, fs2) =>
          ([("success", Js.VBool false); ("error", Js.VStr e)], fs2)
      | (Normal _, fs2) =>
          ([("success", Js.VBool true);
            ("stationsAdded", Js.VNum (Z.of_nat (List.length stationsData)));
            ("timestamp", Js.VStr (Js.now_iso_string now))], fs2)
      end
  end.




(** [addSensorData(dataPoint)].  [add] creates the document through a
    commit of that one write; [docId] is the identifier the SDK draws for
    the new document. *)
Definition addSensorData (be : Backend) (fs : Firestore) (docId : string)
    (dataPoint : SensorRecord) : Js.object * Firestore :=
  match getFirestore be fs with
  | (Throw e, fs1) =>
      ([("success", Js.VBool false); ("error", Js.VStr e)], fs1)
  | (Normal _, fs1) =>
      match commit be fs1 [sensor_write dataPoint] with
      | (Throw e, fs2) =>
          ([("success", Js.VBool false); ("error", Js.VStr e)], fs2)
      | (Normal _, fs2) =>
          ([("success", Js.VBool true); ("docId", Js.VStr docId)], fs2)
      end
  end.

End FirebaseConfig.

(** ** dublinBikesFetcher.js *)

Module DublinBikesFetcher.

Definition JCDECAUX_API_URL : string :=
  "https://api.jcdecaux.com/vls/v1/stations".

Definition CONTRACT_NAME : string := "dublin".

(** The three module-level statistics. *)
Record Stats := {
  fetchCount : nat;
  lastFetchTime : option string;
  lastFetchStatus : string
}.

Definition initial_stats : Stats :=
  {| fetchCount := 0; lastFetchTime := None;
     lastFetchStatus := "Not started" |}.

(** What [await response.json()] gives: a rejection, an object that is
    not an array, or the array of stations. *)
Inductive ResponseBody :=
| InvalidJson (message : string)
| NotAnArray
| StationArray (stations : list UpstreamStation).

Record HttpResponse := {
  http_status : Z;
  statusText : string;
  json : ResponseBody
}.

(** [response.ok]. *)
Definition ok (r : HttpResponse) : bool :=
  (200 <=? http_status r) && (http_status r <=? 299).

(** [await fetch(url)]: rejected, or answered. *)
Inductive FetchOutcome :=
| NetworkError (message : string)
| Responded (r : HttpResponse).

(** [process.env.JCDECAUX_API_KEY] and the upstream service. *)
Record Environment := {
  JCDECAUX_API_KEY : option string;
  upstream : string -> FetchOutcome
}.

(** Statistics, Firestore and the URLs requested so far (oldest first). *)
Record World := {
  stats : Stats;
  firestore : FirebaseConfig.Firestore;
  requests : list string
}.

Definition initial_world : World :=
  {| stats := initial_stats;
     firestore := FirebaseConfig.initial_firestore;
     requests := [] |}.

(** [x || d] on an optional boolean. *)
Definition bool_or (x : option bool) (d : bool) : bool :=
  match x with
  | Some true => true
  | _ => d
  end.

(** [x || d] on an optional integer. *)
Definition int_or (x : option Z) (d : Z) : Z :=
  match x with
  | Some n => if n =? 0 then d else n
  | None => d
  end.

(** [x || d] on an optional string. *)
Definition string_or (x : option string) (d : string) : string :=
  match x with
  | Some s => if String.eqb s "" then d else s
  | None => d
  end.

(** The arrow function handed to [stations.map]; reading [lat] of a
    missing [position] throws a TypeError. *)
Definition transform (station : UpstreamStation)
  : Completion StationRecord :=
  match up_position station with
  | None => Throw "Cannot read properties of undefined (reading 'lat')"
  | Some p =>
      Normal
        {| station_number := up_number station;
           station_name := up_name station;
           address := up_address station;
           position := {| lat := lat p; lng := lng p |};
           banking := bool_or (up_banking station) false;
           bonus := bool_or (up_bonus station) false;
           bike_stands := int_or (up_bike_stands station) 0;
           available_bike_stands :=
             int_or (up_available_bike_stands station) 0;
           available_bikes := int_or (up_available_bikes station) 0;
           status := string_or (up_status station) "UNKNOWN";
           last_update :=
             match up_last_update station with
             | Some t => if t =? 0 then None else Some t
             | None => None
             end |}
  end.

Fixpoint map_transform (stations : list UpstreamStation)
  : Completion (list StationRecord) :=
  match stations with
  | [] => Normal []
  | s :: rest =>
      match transform s with
      | Throw e => Throw e
      | Normal t =>
          match map_transform rest with
          | Throw e => Throw e
          | Normal ts => Normal (t :: ts)
          end
      end
  end.

Definition set_status (st : Stats) (msg : string) : Stats :=
  {| fetchCount := fetchCount st;
     lastFetchTime := lastFetchTime st;
     lastFetchStatus := msg |}.

(** The [catch (error)] block of [fetchDublinBikes]. *)
Definition on_error (message : string) (w : World) : Js.object * World :=
  ([("success", Js.VBool false); ("error", Js.VStr message)],
   {| stats := set_status (stats w) ("Error: " ++ message);
      firestore := firestore w;
      requests := requests w |}).

(** The URL requested with the key [key]. *)
Definition request_url (key : string) : string :=
  JCDECAUX_API_URL ++ "?contract=" ++ CONTRACT_NAME ++ "&apiKey=" ++ key.

(** One tick.  [now_batch] is the clock read inside [addDublinBikesData],
    [now_done] the clock read after a successful commit. *)
Definition fetchDublinBikes (env : Environment)
    (be : FirebaseConfig.Backend) (now_batch now_done : Z) (w : World)
  : Js.object * World :=
  match JCDECAUX_API_KEY env with
  | None | Some "" =>
      ([("success", Js.VBool false); ("error", Js.VStr "Missing API key")],
       {| stats := set_status (stats w) "Error: Missing API key";
          firestore := firestore w;
          requests := requests w |})
  | Some key =>
      let url := request_url key in
      let w1 :=
        {| stats := stats w;
           firestore := firestore w;
           requests := requests w ++ [url] |} in
      match upstream env url with
      | NetworkError e => on_error e w1
      | Responded response =>
          if negb (ok response) then
            on_error
              ("API returned status " ++
               Js.string_of_Z (http_status response) ++ ": " ++
               statusText response) w1
          else
            match json response with
            | InvalidJson e => on_error e w1
            | NotAnArray => on_error "stations.map is not a function" w1
            | StationArray stations =>
                match map_transform stations with
                | Throw e => on_error e w1
                | Normal transformedStations =>
                    let '(result, fs') :=
                      FirebaseConfig.addDublinBikesData be (firestore w1)
                        now_batch transformedStations in
                    let w2 :=
                      {| stats := stats w1;
                         firestore := fs';
                         requests := requests w1 |} in
                    if Js.truthy (Js.get "success" result) then
                      let n := S (fetchCount (stats w2)) in
                      ([("success", Js.VBool true);
                        ("stationsCount",
                         Js.VNum
                           (Z.of_nat (List.length transformedStations)));
                        ("fetchCount", Js.VNum (Z.of_nat n))],
                       {| stats :=
                            {| fetchCount := n;
                               lastFetchTime :=
                                 Some (Js.now_iso_string now_done);
                               lastFetchStatus :=
                                 "Success: " ++
                                 Js.string_of_Z
                                   (Z.of_nat
                                      (List.length transformedStations)) ++
                                 " stations" |};
                          firestore := firestore w2;
                          requests := requests w2 |})
                    else
                      (result,
                       {| stats :=
                            set_status (stats w2)
                              ("Error: " ++
                               Js.template (Js.get "error" result));
                          firestore := firestore w2;
                          requests := requests w2 |})
                end
            end
      end
  end.

Definition getFetcherStats (w : World) : Stats := stats w.

Definition triggerManualFetch := fetchDublinBikes.

(** What one run of [fetchDublinBikes] meets: the answer of the upstream
    service and the two clock readings. *)
Record Tick := {
  tick_upstream : string -> FetchOutcome;
  tick_now_batch : Z;
  tick_now_done : Z
}.

(** The runs of [fetchDublinBikes] of one process, each to completion
    before the next: the key is read once, when the module loads. *)
Fixpoint run_ticks (key : option string) (be : FirebaseConfig.Backend)
    (ticks : list Tick) (w : World) : list Js.object * World :=
  match ticks with
  | [] => ([], w)
  | t :: rest =>
      let '(result, w1) :=
        fetchDublinBikes
          {| JCDECAUX_API_KEY := key; upstream := tick_upstream t |}
          be (tick_now_batch t) (tick_now_done t) w in
      let '(results, w2) := run_ticks key be rest w1 in
      (result :: results, w2)
  end.

(** [startDublinBikesFetcher()]: the fetch made at once, then the fetches
    the schedule triggers. *)
Definition startDublinBikesFetcher (key : option string)
    (be : FirebaseConfig.Backend) (first : Tick) (scheduled : list Tick)
    (w : World) : list Js.object * World :=
  run_ticks key be (first :: scheduled) w.

(** The request one tick sends: none without a key, else the one URL. *)
Definition requested (key : option string) : list string :=
  match key with
  | None | Some "" => []
  | Some k => [request_url k]
  end.

(** A station the upstream service sent with its position. *)
Definition has_position (station : UpstreamStation) : bool :=
  match up_position station with
  | Some _ => true
  | None => false
  end.

(** [result.success], as the callers test it. *)
Definition succeeded (result : Js.object) : bool :=
  Js.truthy (Js.get "success" result).

End DublinBikesFetcher.

(** ** server.js *)

Module Server.

(** [sensorData] and [sessionId]. *)
Record State := {
  sensorData : list SensorRecord;
  sessionId : option string
}.

Definition initial_state : State :=
  {| sensorData := []; sessionId := None |}.

Inductive Body :=
| JsonBody (o : Js.object)
| TextBody (text : string).

Record Response := {
  status_code : Z;
  headers : list (string * string);
  body : Body
}.

Definition json_response (code : Z) (o : Js.object) : Response :=
  {| status_code := code; headers := []; body := JsonBody o |}.

Definition session_value (id : option string) : Js.value :=
  match id with
  | Some s => Js.VStr s
  | None => Js.VNull
  end.

(** POST /api/session/start; [now] is the reading of [Date.now()]. *)
Definition post_session_start (now : Z) (st : State) : Response * State :=
  let id := Js.string_of_Z now in
  (json_response 200
     [("success", Js.VBool true); ("sessionId", Js.VStr id);
      ("message", Js.VStr "Session started")],
   {| sensorData := []; sessionId := Some id |}).

(** The [data] property of the request body. *)
Inductive DataField :=
| DataUndefined
| DataNull
| DataBool (b : bool)
| DataNumber (x : Js.number)
| DataString (s : string)
| DataObject (r : SensorRecord)
| DataArray (l : list SensorRecord).

Definition data_truthy (d : DataField) : bool :=
  match d with
  | DataUndefined | DataNull => false
  | DataBool b => b
  | DataNumber x => Js.number_truthy x
  | DataString s => negb (String.eqb s "")
  | DataObject _ | DataArray _ => true
  end.

(** [Array.isArray]. *)
Definition isArray (d : DataField) : bool :=
  match d with
  | DataArray _ => true
  | _ => false
  end.

(** The line the handler of POST /api/data writes to the console. *)
Inductive ConsoleLine :=
| LogStored (points total : nat)
| LogStorageFailed (error : Js.value).

(** The elements that [...data] spreads once the guard of the handler has
    let [data] through, that is, the elements of the array. *)
Definition elements (d : DataField) : list SensorRecord :=
  match d with
  | DataArray l => l
  | _ => []
  end.

(** POST /api/data.  [addSensorDataBatch] catches everything itself, so
    the handler's own [catch] is never entered.  The handler pushes the
    points before it awaits Firestore and reads [sensorData.length] for
    [totalPoints] after it: the count reported here is the one the code
    reports when no other request is served during that await. *)
Definition post_data (be : FirebaseConfig.Backend) (data : DataField)
    (st : State) (fs : FirebaseConfig.Firestore)
  : Response * list ConsoleLine * State * FirebaseConfig.Firestore :=
  if negb (data_truthy data) || negb (isArray data) then
    (json_response 400
       [("success", Js.VBool false);
        ("error", Js.VStr "Invalid data format")], [], st, fs)
  else
    let l := elements data in
    let st1 :=
      {| sensorData := sensorData st ++ l; sessionId := sessionId st |} in
    let '(firestoreResult, fs1) :=
      FirebaseConfig.addSensorDataBatch be fs l in
    let line :=
      if Js.truthy (Js.get "success" firestoreResult) then
        LogStored (List.length l) (List.length (sensorData st1))
      else LogStorageFailed (Js.get "error" firestoreResult) in
    (json_response 200
       [("success", Js.VBool true);
        ("totalPoints", Js.VNum (Z.of_nat (List.length (sensorData st1))));
        ("message",
         Js.VStr
           ("Received " ++ Js.string_of_Z (Z.of_nat (List.length l)) ++
            " points"));
        ("storedToCloud", Js.VBool true)],
     [line], st1, fs1).

(** The object of a JSON response. *)
Definition body_object (r : Response) : Js.object :=
  match body r with
  | JsonBody o => o
  | TextBody _ => []
  end.

(** A run of POST /api/data requests with the given [data] fields, one
    after the other; the responses are listed oldest first. *)
Fixpoint post_all (be : FirebaseConfig.Backend) (bodies : list DataField)
    (st : State) (fs : FirebaseConfig.Firestore)
  : list Response * State * FirebaseConfig.Firestore :=
  match bodies with
  | [] => ([], st, fs)
  | data :: rest =>
      let '(resp, _, st1, fs1) := post_data be data st fs in
      let '(resps, st2, fs2) := post_all be rest st1 fs1 in
      (resp :: resps, st2, fs2)
  end.

(** GET /api/data/count. *)
Definition get_count (st : State) : Response :=
  json_response 200
    [("count", Js.VNum (Z.of_nat (List.length (sensorData st))));
     ("sessionId", session_value (sessionId st))].

(** Stable insertion of [x] in a list sorted by timestamp: [x] goes before
    the first element whose timestamp is not smaller. *)
Fixpoint insert_by_timestamp (x : SensorRecord) (l : list SensorRecord)
  : list SensorRecord :=
  match l with
  | [] => [x]
  | y :: rest =>
      if timestamp x <=? timestamp y then x :: y :: rest
      else y :: insert_by_timestamp x rest
  end.

(** [[...l].sort((a, b) => a.timestamp - b.timestamp)]: the sort is
    stable, so the result is the one a stable insertion sort gives. *)
Fixpoint sort_by_timestamp (l : list SensorRecord) : list SensorRecord :=
  match l with
  | [] => []
  | x :: rest => insert_by_timestamp x (sort_by_timestamp rest)
  end.

Definition headers_row : list string :=
  ["timestamp"; "datetime"; "seconds_elapsed"; "latitude"; "longitude";
   "altitude"; "speed"; "accuracy"; "heading"; "accel_x"; "accel_y";
   "accel_z"; "accel_magnitude"].

(** [field || ''] followed by the string conversion [join] applies. *)
Definition cell (field : option Js.number) : string :=
  match field with
  | Some x => if Js.number_truthy x then Js.number_to_string x else ""
  | None => ""
  end.

(** The thirteen cells of a row; [None] when [toISOString] throws. *)
Definition row (startTime : Z) (point : SensorRecord)
  : option (list string) :=
  match Js.toISOString (timestamp point) with
  | None => None
  | Some datetime =>
      Some
        [Js.string_of_Z (timestamp point);
         datetime;
         Js.to_fixed_3 (timestamp point - startTime);
         cell (latitude point);
         cell (longitude point);
         cell (altitude point);
         cell (speed point);
         cell (accuracy point);
         cell (heading point);
         cell (accel_x point);
         cell (accel_y point);
         cell (accel_z point);
         cell (accel_magnitude point)]
  end.

(** The [forEach] that appends one line per point to [csv]. *)
Fixpoint append_rows (startTime : Z) (points : list SensorRecord)
    (csv : string) : option string :=
  match points with
  | [] => Some csv
  | point :: rest =>
      match row startTime point with
      | None => None
      | Some cells =>
          append_rows startTime rest
            (csv ++ Js.join "," cells ++ Js.newline)
      end
  end.

Definition internal_server_error : Response :=
  json_response 500
    [("success", Js.VBool false);
     ("error", Js.VStr "Internal server error")].

(** GET /api/data/download.  The sort works on a copy of [sensorData];
    the state returned is the one the handler leaves.  An exception in
    the handler reaches the error middleware, which answers 500. *)
Definition get_download (st : State) : Response * State :=
  if Nat.eqb (List.length (sensorData st)) 0 then
    (json_response 404
       [("success", Js.VBool false);
        ("error", Js.VStr "No data available")], st)
  else
    let copy := sensorData st in
    let sortedData := sort_by_timestamp copy in
    let csv := Js.join "," headers_row ++ Js.newline in
    match sortedData with
    | [] => (internal_server_error, st)
    | first :: _ =>
        let startTime := timestamp first in
        match append_rows startTime sortedData csv with
        | None => (internal_server_error, st)
        | Some csv' =>
            ({| status_code := 200;
                headers :=
                  [("Content-Type", "text/csv");
                   ("Content-Disposition",
                    "attachment; filename=sensor_data_" ++
                    Js.template (session_value (sessionId st)) ++
                    ".csv")];
                body := TextBody csv' |}, st)
        end
    end.

(** The text of a response. *)
Definition body_text (r : Response) : string :=
  match body r with
  | TextBody t => t
  | JsonBody _ => ""
  end.

(** Lines of a CSV text: each row joined with commas and ended by a line
    feed. *)
Fixpoint csv_lines (rows : list (list string)) : string :=
  match rows with
  | [] => ""
  | cells :: rest => Js.join "," cells ++ Js.newline ++ csv_lines rest
  end.

(** Ascending order of timestamps. *)
Definition by_timestamp (a b : SensorRecord) : Prop :=
  timestamp a <= timestamp b.

(** The cells of the row of a record whose timestamp a [Date] can hold:
    timestamp, datetime, seconds elapsed since [startTime], and the ten
    measurements. *)
Definition cells_of (startTime : Z) (point : SensorRecord) : list string :=
  [Js.string_of_Z (timestamp point);
   Js.iso_string (timestamp point);
   Js.to_fixed_3 (timestamp point - startTime);
   cell (latitude point); cell (longitude point); cell (altitude point);
   cell (speed point); cell (accuracy point); cell (heading point);
   cell (accel_x point); cell (accel_y point); cell (accel_z point);
   cell (accel_magnitude point)].

(** Epoch milliseconds from 1970 on that a [Date] can hold.  On these the
    subtraction and the division of the export are exact in double
    arithmetic, so the integer model prints what JavaScript prints. *)
Definition valid_timestamp (t : Z) : bool :=
  (0 <=? t) && (t <=? Js.max_time_value).

(** Epoch milliseconds a [Date] can hold, before 1970 as well as after:
    [toISOString] throws on any other number. *)
Definition time_value (t : Z) : bool :=
  Z.abs t <=? Js.max_time_value.

(** [2^43] seconds, in milliseconds.  Two time values less than this apart
    have a difference [d] that the subtraction gives exactly, and the
    double nearest to [d / 1000] is within [2^-11 < 0.0005] of the
    quotient, so [toFixed(3)] prints the digits of [d].  From this
    distance on the rounding of the quotient can change the last digit
    printed: 8840000000000001 milliseconds print as 8840000000000.002. *)
Definition exact_span : Z := 8796093022208000.

(** The buffers whose export the integer model of [row] describes: every
    timestamp is a time value and no two are [exact_span] or more apart. *)
Definition exportable (points : list SensorRecord) : bool :=
  forallb (fun p => time_value (timestamp p)) points &&
  forallb
    (fun p =>
       forallb (fun q => timestamp q - timestamp p <? exact_span) points)
    points.

(** POST /api/session/stop. *)
Definition post_session_stop (st : State) : Response :=
  json_response 200
    [("success", Js.VBool true);
     ("message", Js.VStr "Session stopped");
     ("dataPoints", Js.VNum (Z.of_nat (List.length (sensorData st))));
     ("sessionId", session_value (sessionId st))].





(** POST /api/dublin-bikes/fetch.  [triggerManualFetch] catches
    everything itself, so the handler's own [catch] is never entered. *)
Definition post_dublin_bikes_fetch (env : DublinBikesFetcher.Environment)
    (be : FirebaseConfig.Backend) (now_batch now_done : Z)
    (w : DublinBikesFetcher.World) : Response * DublinBikesFetcher.World :=
  let '(result, w') :=
    DublinBikesFetcher.triggerManualFetch env be now_batch now_done w in
  if Js.truthy (Js.get "success" result) then
    (json_response 200
       [("success", Js.VBool true);
        ("message", Js.VStr "Fetch completed successfully");
        ("stationsCount", Js.get "stationsCount" result)], w')
  else
    (json_response 500
       [("success", Js.VBool false); ("error", Js.get "error" result)], w').

(** The requests the session routes serve. *)
Inductive Request :=
| StartSession (now : Z)
| PostData (data : DataField)
| GetCount
| GetDownload
| StopSession.

(** The router: one request against the state of the process. *)
Definition handle (be : FirebaseConfig.Backend) (req : Request)
    (st : State) (fs : FirebaseConfig.Firestore)
  : Response * State * FirebaseConfig.Firestore :=
  match req with
  | StartSession now =>
      let '(resp, st') := post_session_start now st in (resp, st', fs)
  | PostData data =>
      let '(resp, _, st', fs') := post_data be data st fs in (resp, st', fs')
  | GetCount => (get_count st, st, fs)
  | GetDownload =>
      let '(resp, st') := get_download st in (resp, st', fs)
  | StopSession => (post_session_stop st, st, fs)
  end.

(** A sequence of requests in their order of arrival, each served before
    the next.  Only POST /api/data suspends, at its [await], and it has
    changed the buffer by then: requests that overlap leave the state this
    run leaves, and differ from it only in the [totalPoints] of the
    suspended POST. *)
Fixpoint run (be : FirebaseConfig.Backend) (reqs : list Request)
    (st : State) (fs : FirebaseConfig.Firestore)
  : list Response * State * FirebaseConfig.Firestore :=
  match reqs with
  | [] => ([], st, fs)
  | req :: rest =>
      let '(resp, st1, fs1) := handle be req st fs in
      let '(resps, st2, fs2) := run be rest st1 fs1 in
      (resp :: resps, st2, fs2)
  end.

(** The records a request adds to the buffer. *)
Definition posted (req : Request) : list SensorRecord :=
  match req with
  | PostData data => elements data
  | _ => []
  end.

(** The clock reading of the last session start of a sequence of requests
    and the requests that follow it. *)
Fixpoint after_last_start (reqs : list Request)
  : option (Z * list Request) :=
  match reqs with
  | [] => None
  | req :: rest =>
      match after_last_start rest with
      | Some found => Some found
      | None =>
          match req with
          | StartSession now => Some (now, rest)
          | _ => None
          end
      end
  end.

(** A character that would break a CSV cell: the comma and the line feed. *)
Definition is_separator (c : ascii) : bool :=
  Ascii.eqb c ","%char || Ascii.eqb c (ascii_of_nat 10).

Fixpoint no_separator (s : string) : bool :=
  match s with
  | EmptyString => true
  | String c s' => negb (is_separator c) && no_separator s'
  end.

(** A response without one property of its JSON body. *)
Definition without (key : string) (r : Response) : Response :=
  match body r with
  | JsonBody o =>
      {| status_code := status_code r;
         headers := headers r;
         body :=
           JsonBody (filter (fun kv => negb (String.eqb (fst kv) key)) o) |}
  | TextBody _ => r
  end.

End Server.

(** ** The server before the Firestore integration

    The earlier version of [server.js] kept in the repository.  Its
    handlers are those of [server.js], character for character, except
    POST /api/data, which only fills the buffer. *)

Module OriginalServer.

Import Server.

(** POST /api/data. *)
Definition post_data (data : DataField) (st : State) : Response * State :=
  if negb (data_truthy data) || negb (isArray data) then
    (json_response 400
       [("success", Js.VBool false);
        ("error", Js.VStr "Invalid data format")], st)
  else
    let l := elements data in
    let st1 :=
      {| sensorData := sensorData st ++ l; sessionId := sessionId st |} in
    (json_response 200
       [("success", Js.VBool true);
        ("totalPoints", Js.VNum (Z.of_nat (List.length (sensorData st1))));
        ("message",
         Js.VStr
           ("Received " ++ Js.string_of_Z (Z.of_nat (List.length l)) ++
            " points"))], st1).

Definition handle (req : Request) (st : State) : Response * State :=
  match req with
  | StartSession now => post_session_start now st
  | PostData data => post_data data st
  | GetCount => (get_count st, st)
  | GetDownload => get_download st
  | StopSession => (post_session_stop st, st)
  end.

Fixpoint run (reqs : list Request) (st : State) : list Response * State :=
  match reqs with
  | [] => ([], st)
  | req :: rest =>
      let '(resp, st1) := handle req st in
      let '(resps, st2) := run rest st1 in
      (resp :: resps, st2)
  end.

End OriginalServer.

(** ** The batch committer as the specification words it

    "Partition the records into chunks no larger than the limit, submit each
    chunk as one atomic operation, in order; stop at the first chunk that
    fails."  These definitions follow that sentence, not the code; the
    refinement lemma below relates the loop of [addSensorDataBatch] to them. *)

Module BatchCommitter.

Import FirebaseConfig.

(** Consecutive chunks of [size] elements (the last one may be shorter);
    [fuel] bounds the number of chunks. *)
Fixpoint chunks_fuel {A : Type} (fuel size : nat) (l : list A)
  : list (list A) :=
  match fuel with
  | O => []
  | S fuel' =>
      match l with
      | [] => []
      | _ :: _ => firstn size l :: chunks_fuel fuel' size (skipn size l)
      end
  end.

Definition chunks {A : Type} (size : nat) (l : list A) : list (list A) :=
  chunks_fuel (List.length l) size l.

(** The sizes of the chunks of a list of [n] elements. *)
Fixpoint chunk_sizes (fuel size n : nat) : list nat :=
  match fuel with
  | O => []
  | S fuel' =>
      match n with
      | O => []
      | S _ => Nat.min size n :: chunk_sizes fuel' size (n - size)
      end
  end.

(** Submit the chunks in order, stopping at the first rejection. *)
Fixpoint commit_chunks (be : Backend) (pending : list (list Write))
    (results : list ChunkResult) (fs : Firestore)
  : Completion (list ChunkResult) * Firestore :=
  match pending with
  | [] => (Normal results, fs)
  | c :: rest =>
      match commit be fs c with
      | (Throw e, fs') => (Throw e, fs')
      | (Normal _, fs') =>
          commit_chunks be rest
            (results ++
             [{| chunk_success := true; count := List.length c |}]) fs'
      end
  end.

(** [getFirestore] succeeds: Firebase is initialised already, or the
    service-account key loads. *)
Definition ready (be : Backend) (fs : Firestore) : bool :=
  firebaseInitialized fs ||
  match key_file_error be with None => true | Some _ => false end.

(** The write batches a list of sensor records is cut into. *)
Definition sensor_chunks (dataPoints : list SensorRecord)
  : list (list Write) :=
  map (map sensor_write) (chunks BATCH_SIZE dataPoints).

End BatchCommitter.

(** ** Sample inputs *)

Module Samples.

Import FirebaseConfig.

(** A record that carries a timestamp only. *)
Definition bare (t : Z) : SensorRecord :=
  {| timestamp := t; latitude := None; longitude := None;
     altitude := None; speed := None; accuracy := None; heading := None;
     accel_x := None; accel_y := None; accel_z := None;
     accel_magnitude := None |}.

(** [n] records with timestamps 0, 1, ... *)
Definition readings (n : nat) : list SensorRecord :=
  map (fun i => bare (Z.of_nat i)) (seq 0 n).

Definition zero : Js.number :=
  {| Js.negative := false; Js.digits := 0; Js.exponent := 0 |}.

Definition decimal (d : N) (e : Z) : Js.number :=
  {| Js.negative := false; Js.digits := d; Js.exponent := e |}.

Definition station (n : Z) : StationRecord :=
  {| station_number := n; station_name := "STATION"; address := "Street";
     position := {| lat := decimal 533498 (-4); lng := decimal 62603 (-4) |};
     banking := false; bonus := false; bike_stands := 20;
     available_bike_stands := 12; available_bikes := 8;
     status := "OPEN"; last_update := None |}.

Definition stations (n : nat) : list StationRecord :=
  map (fun i => station (Z.of_nat i)) (seq 0 n).

Definition upstream_station (n : Z) : UpstreamStation :=
  {| up_number := n; up_name := "STATION"; up_address := "Street";
     up_position :=
       Some {| lat := decimal 533498 (-4); lng := decimal 62603 (-4) |};
     up_banking := None; up_bonus := None; up_bike_stands := Some 20;
     up_available_bike_stands := Some 12; up_available_bikes := Some 8;
     up_status := Some "OPEN"; up_last_update := None |}.

(** A station the upstream service sent with an empty status, a
    [last_update] of 0, and without its [banking] flag and its number of
    stands. *)
Definition sparse_station : UpstreamStation :=
  {| up_number := 9; up_name := "SPARSE"; up_address := "Lane";
     up_position :=
       Some {| lat := decimal 533498 (-4); lng := decimal 62603 (-4) |};
     up_banking := None; up_bonus := Some true; up_bike_stands := None;
     up_available_bike_stands := Some 0; up_available_bikes := Some 8;
     up_status := Some ""; up_last_update := Some 0 |}.

(** A reading taken standing still: speed, heading and the x acceleration
    are present and equal to 0. *)
Definition standing_still : SensorRecord :=
  {| timestamp := 1000;
     latitude := Some (decimal 533498 (-4));
     longitude :=
       Some {| Js.negative := true; Js.digits := 62603;
               Js.exponent := -4 |};
     altitude := Some (decimal 10 0);
     speed := Some zero;
     accuracy := Some (decimal 5 0);
     heading := Some zero;
     accel_x := Some zero;
     accel_y := Some (decimal 3 (-1));
     accel_z := Some (decimal 98 (-1));
     accel_magnitude := None |}.

(** A backend whose key loads and that accepts every commit. *)
Definition accepting : Backend :=
  {| key_file_error := None; rejects := fun _ _ => None |}.

(** A backend that rejects the commit call numbered [k] and no other. *)
Definition rejecting_call (k : nat) : Backend :=
  {| key_file_error := None;
     rejects := fun n _ =>
       if Nat.eqb n k then Some "DEADLINE_EXCEEDED" else None |}.

(** A backend that enforces the limit of 500 writes per batch. *)
Definition limit_enforcing : Backend :=
  {| key_file_error := None;
     rejects := fun _ batch =>
       if Nat.ltb 500 (List.length batch)
       then Some "maximum 500 writes allowed per request" else None |}.

(** A backend whose service-account key cannot be loaded. *)
Definition unreachable : Backend :=
  {| key_file_error := Some "Cannot find module './firebase-admin-key.json'";
     rejects := fun _ _ => Some "unavailable" |}.

(** A station the upstream service sent without its position. *)
Definition no_position : UpstreamStation :=
  {| up_number := 7; up_name := "NO POSITION"; up_address := "Quay";
     up_position := None; up_banking := None; up_bonus := None;
     up_bike_stands := Some 30; up_available_bike_stands := Some 10;
     up_available_bikes := Some 20; up_status := Some "OPEN";
     up_last_update := Some 1700000000000 |}.

(** An upstream answer with the given status and body. *)
Definition answer (code : Z) (text : string)
    (body : DublinBikesFetcher.ResponseBody)
  : DublinBikesFetcher.HttpResponse :=
  {| DublinBikesFetcher.http_status := code;
     DublinBikesFetcher.statusText := text;
     DublinBikesFetcher.json := body |}.

(** A process with the key "k" whose upstream service always gives the
    same answer. *)
Definition answering (response : DublinBikesFetcher.HttpResponse)
  : DublinBikesFetcher.Environment :=
  {| DublinBikesFetcher.JCDECAUX_API_KEY := Some "k";
     DublinBikesFetcher.upstream := fun _ =>
       DublinBikesFetcher.Responded response |}.

(** A tick whose upstream service gives the answer [response]. *)
Definition tick (response : DublinBikesFetcher.HttpResponse) (now : Z)
  : DublinBikesFetcher.Tick :=
  {| DublinBikesFetcher.tick_upstream := fun _ =>
       DublinBikesFetcher.Responded response;
     DublinBikesFetcher.tick_now_batch := now;
     DublinBikesFetcher.tick_now_done := now + 250 |}.

End Samples.

(** * Properties *)

Example string_of_Z_samples :
  Js.string_of_Z 0 = "0" /\ Js.string_of_Z 1700000000000 = "1700000000000" /\
  Js.string_of_Z (-5) = "-5".
Proof. repeat split; reflexivity. Qed.

Example toISOString_samples :
  Js.toISOString 0 = Some "1970-01-01T00:00:00.000Z" /\
  Js.toISOString 1700000000000 = Some "2023-11-14T22:13:20.000Z" /\
  Js.toISOString 951782400000 = Some "2000-02-29T00:00:00.000Z" /\
  Js.toISOString (-1) = Some "1969-12-31T23:59:59.999Z" /\
  Js.toISOString 8640000000000000 = Some "+275760-09-13T00:00:00.000Z" /\
  Js.toISOString (-8640000000000000) = Some "-271821-04-20T00:00:00.000Z" /\
  Js.toISOString (-62198755200000) = Some "-000001-01-01T00:00:00.000Z" /\
  Js.toISOString 8640000000000001 = None.
Proof. repeat split; vm_compute; reflexivity. Qed.

Example number_to_string_samples :
  Js.number_to_string {| Js.negative := false; Js.digits := 533498; Js.exponent := -4 |} = "53.3498" /\
  Js.number_to_string {| Js.negative := true; Js.digits := 62603; Js.exponent := -4 |} = "-6.2603" /\
  Js.number_to_string {| Js.negative := false; Js.digits := 180; Js.exponent := 0 |} = "180" /\
  Js.number_to_string {| Js.negative := false; Js.digits := 5; Js.exponent := -1 |} = "0.5" /\
  Js.number_to_string {| Js.negative := false; Js.digits := 1; Js.exponent := -7 |} = "1e-7" /\
  Js.number_to_string {| Js.negative := false; Js.digits := 15; Js.exponent := -8 |} = "1.5e-7" /\
  Js.number_to_string {| Js.negative := false; Js.digits := 1; Js.exponent := 21 |} = "1e+21" /\
  Js.number_to_string {| Js.negative := false; Js.digits := 1; Js.exponent := 20 |} = "100000000000000000000" /\
  Js.number_to_string {| Js.negative := true; Js.digits := 0; Js.exponent := 0 |} = "0".
Proof. repeat split; vm_compute; reflexivity. Qed.

Example to_fixed_3_samples :
  Js.to_fixed_3 0 = "0.000" /\ Js.to_fixed_3 500 = "0.500" /\
  Js.to_fixed_3 1234567 = "1234.567" /\ Js.to_fixed_3 7 = "0.007".
Proof. repeat split; vm_compute; reflexivity. Qed.

Example parseInt_samples :
  Js.parseInt "42" = Some (Js.Finite 42) /\
  Js.parseInt "  -5abc" = Some (Js.Finite (-5)) /\
  Js.parseInt "0x1F" = Some (Js.Finite 31) /\ Js.parseInt "abc" = None /\
  Js.parseInt "" = None /\ Js.parseInt "0x" = None /\
  Js.parseInt "12.9" = Some (Js.Finite 12) /\
  Js.parseInt "undefined" = None /\
  Js.parseInt "+7" = Some (Js.Finite 7) /\
  Js.parseInt "-0" = Some (Js.Finite 0).
Proof. repeat split; vm_compute; reflexivity. Qed.

(** White space beyond ASCII is skipped as well: a no-break space (U+00A0)
    and an em space (U+2003) before the digits, but not a zero-width space
    (U+200B), which is no white space. *)
Example parseInt_white_space_samples :
  Js.parseInt (String (ascii_of_nat 194) (String (ascii_of_nat 160) "5")) =
    Some (Js.Finite 5) /\
  Js.parseInt
    (String (ascii_of_nat 226)
       (String (ascii_of_nat 128) (String (ascii_of_nat 131) " 7"))) =
    Some (Js.Finite 7) /\
  Js.parseInt
    (String (ascii_of_nat 226)
       (String (ascii_of_nat 128) (String (ascii_of_nat 139) "7"))) = None.
Proof. repeat split; vm_compute; reflexivity. Qed.

(** Integers beyond [2^53] are rounded to the nearest double, ties to the
    even significand, and to an infinity from [2^1024] on. *)
Example to_double_samples :
  Js.to_double 9007199254740992 = Js.Finite 9007199254740992 /\
  Js.to_double 9007199254740993 = Js.Finite 9007199254740992 /\
  Js.to_double 9007199254740995 = Js.Finite 9007199254740996 /\
  Js.to_double (-9007199254740993) = Js.Finite (-9007199254740992) /\
  Js.to_double 123456789012345678901234567890 =
    Js.Finite 123456789012345677877719597056 /\
  Js.to_double (2 ^ 1024 - 2 ^ 970 - 1) = Js.Finite (2 ^ 1024 - 2 ^ 971) /\
  Js.to_double (2 ^ 1024 - 2 ^ 970) = Js.Infinite false /\
  Js.to_double (- 10 ^ 400) = Js.Infinite true.
Proof. repeat split; vm_compute; reflexivity. Qed.

(** ** The chunked commit of [addSensorDataBatch] *)

Section BatchLoop.

Import FirebaseConfig BatchCommitter.

Variable be : Backend.

(** One iteration of the loop, as an equation. *)
Lemma batch_loop_unfold dp i results fs :
  batch_loop be dp i results fs =
  if lt_dec i (List.length dp) then
    match commit be fs (map sensor_write (slice i (i + BATCH_SIZE) dp)) with
    | (Throw e, fs') => (Throw e, fs')
    | (Normal _, fs') =>
        batch_loop be dp (i + BATCH_SIZE)
          (results ++
           [{| chunk_success := true;
               count := List.length (slice i (i + BATCH_SIZE) dp) |}]) fs'
    end
  else (Normal results, fs).
Proof.
  rewrite batch_loop_equation_1.
  destruct (lt_dec i (List.length dp)); simpl; [|reflexivity].
  destruct (commit be fs _) as [[u|e] fs']; reflexivity.
Qed.

Lemma slice_firstn_skipn {A : Type} (i n : nat) (l : list A) :
  slice i (i + n) l = firstn n (skipn i l).
Proof. unfold slice. replace (i + n - i)%nat with n by lia. reflexivity. Qed.

(** The loop entered at index [i] submits the chunks of the records from
    [i] on, one after the other. *)
Lemma batch_loop_refines fuel : forall dp i results fs,
  (List.length dp - i <= fuel)%nat ->
  batch_loop be dp i results fs =
  commit_chunks be
    (map (map sensor_write) (chunks_fuel fuel BATCH_SIZE (skipn i dp)))
    results fs.
Proof.
  induction fuel as [|fuel IH]; intros dp i results fs Hfuel;
    rewrite batch_loop_unfold.
  - destruct (lt_dec i (List.length dp)); [lia|reflexivity].
  - destruct (lt_dec i (List.length dp)) as [Hlt|Hge].
    + rewrite slice_firstn_skipn.
      cbn [chunks_fuel].
      destruct (skipn i dp) as [|x rest] eqn:Hskip.
      * apply (f_equal (@List.length _)) in Hskip.
        rewrite length_skipn in Hskip. simpl in Hskip. lia.
      * rewrite <- Hskip. cbn [map commit_chunks].
        destruct (commit be fs _) as [[u|e] fs']; [|reflexivity].
        rewrite length_map.
        rewrite IH by (unfold BATCH_SIZE; lia).
        rewrite skipn_skipn. rewrite (Nat.add_comm BATCH_SIZE i).
        reflexivity.
    + cbn [chunks_fuel]. rewrite skipn_all2 by lia. reflexivity.
Qed.

(** [addSensorDataBatch], once Firestore is at hand, is the committer of
    the specification run on the chunks of the input. *)
Lemma batch_loop_from_start dp results fs :
  batch_loop be dp 0 results fs = commit_chunks be (sensor_chunks dp) results fs.
Proof.
  unfold sensor_chunks, chunks.
  rewrite (batch_loop_refines (List.length dp)) by lia.
  reflexivity.
Qed.

End BatchLoop.

(** ** Chunks *)

Section Chunks.

Import BatchCommitter.

Context {A : Type}.
Variable size : nat.
Hypothesis size_pos : (0 < size)%nat.

Lemma chunks_fuel_concat fuel : forall l : list A,
  (List.length l <= fuel)%nat -> List.concat (chunks_fuel fuel size l) = l.
Proof.
  induction fuel as [|fuel IH]; intros l Hlen.
  - destruct l; [reflexivity|simpl in Hlen; lia].
  - destruct l as [|x l']; [reflexivity|].
    cbn [chunks_fuel List.concat]. rewrite IH.
    + apply firstn_skipn.
    + rewrite length_skipn. cbn [List.length] in *. lia.
Qed.

Lemma chunks_fuel_sizes fuel : forall l : list A,
  Forall (fun c => 1 <= List.length c <= size)%nat (chunks_fuel fuel size l).
Proof.
  induction fuel as [|fuel IH]; intros l; [constructor|].
  destruct l as [|x l']; [constructor|].
  cbn [chunks_fuel]. constructor; [|apply IH].
  rewrite length_firstn. cbn [List.length]. lia.
Qed.

Lemma chunks_fuel_length fuel : forall l : list A,
  (List.length l <= fuel)%nat ->
  List.length (chunks_fuel fuel size l) =
  ((List.length l + size - 1) / size)%nat.
Proof.
  induction fuel as [|fuel IH]; intros l Hlen.
  - destruct l; [|simpl in Hlen; lia].
    simpl. symmetry. apply Nat.div_small. lia.
  - destruct l as [|x l']; [simpl; symmetry; apply Nat.div_small; lia|].
    cbn [chunks_fuel].
    remember (x :: l') as l eqn:Hl.
    assert (Hn : (1 <= List.length l)%nat) by (subst l; simpl; lia).
    cbn [List.length]. rewrite IH by (rewrite length_skipn; lia).
    rewrite length_skipn.
    set (n := List.length l) in *.
    destruct (le_lt_dec size n) as [Hge|Hlt].
    + pose proof (Nat.div_mod_eq (n - size + size - 1) size) as E.
      pose proof (Nat.mod_upper_bound (n - size + size - 1) size) as U.
      apply (Nat.div_unique _ _ _ ((n - size + size - 1) mod size));
        [apply U; lia|nia].
    + replace (n - size)%nat with 0%nat by lia.
      rewrite (Nat.div_small (0 + size - 1)) by lia.
      apply (Nat.div_unique _ _ 1 (n - 1)); lia.
Qed.

(** The chunks of a list are non-empty, hold at most [size] elements, are
    [ceil(length / size)] in number and put end to end give the list. *)
Lemma chunks_partition (l : list A) :
  List.concat (chunks size l) = l /\
  Forall (fun c => 1 <= List.length c <= size)%nat (chunks size l) /\
  List.length (chunks size l) = ((List.length l + size - 1) / size)%nat.
Proof.
  unfold chunks. split; [|split].
  - apply chunks_fuel_concat. lia.
  - apply chunks_fuel_sizes.
  - apply chunks_fuel_length. lia.
Qed.

End Chunks.

(** ** The committer of the specification *)

Section CommitChunks.

Import FirebaseConfig BatchCommitter.

Variable be : Backend.

(** When no chunk is rejected, every chunk is committed, in order. *)
Lemma commit_chunks_accepted pending : forall results fs,
  (forall m c, nth_error pending m = Some c ->
               rejects be (commit_calls fs + m) c = None) ->
  commit_chunks be pending results fs =
  (Normal
     (results ++
      map (fun c => {| chunk_success := true; count := List.length c |})
        pending)%list,
   {| firebaseInitialized := firebaseInitialized fs;
      committed := committed fs ++ pending;
      commit_calls := commit_calls fs + List.length pending |}).
Proof.
  induction pending as [|c rest IH]; intros results fs Hacc.
  - simpl. rewrite !app_nil_r, Nat.add_0_r. destruct fs; reflexivity.
  - cbn [commit_chunks]. unfold commit.
    rewrite <- (Nat.add_0_r (commit_calls fs)) at 1.
    rewrite (Hacc 0%nat c eq_refl).
    rewrite IH.
    + cbn [firebaseInitialized committed commit_calls map List.length].
      rewrite <- !app_assoc. cbn [app].
      rewrite Nat.add_succ_r. reflexivity.
    + intros m c' Hm. cbn [commit_calls].
      replace (S (commit_calls fs) + m)%nat
        with (commit_calls fs + S m)%nat by lia.
      apply Hacc. exact Hm.
Qed.

(** When chunk number [j] is the first one rejected, the chunks before it
    stay committed, chunk [j] is the last one submitted, and the error is
    thrown. *)
Lemma commit_chunks_rejected pending : forall j c e results fs,
  nth_error pending j = Some c ->
  (forall m c', (m < j)%nat -> nth_error pending m = Some c' ->
                rejects be (commit_calls fs + m) c' = None) ->
  rejects be (commit_calls fs + j) c = Some e ->
  commit_chunks be pending results fs =
  (Throw e,
   {| firebaseInitialized := firebaseInitialized fs;
      committed := committed fs ++ firstn j pending;
      commit_calls := commit_calls fs + S j |}).
Proof.
  induction pending as [|c0 rest IH]; intros j c e results fs Hnth Hacc Hrej.
  - destruct j; discriminate.
  - destruct j as [|j].
    + injection Hnth as ->. cbn [commit_chunks]. unfold commit.
      rewrite Nat.add_0_r in Hrej. rewrite Hrej.
      cbn [firstn]. rewrite app_nil_r, Nat.add_1_r. reflexivity.
    + cbn [commit_chunks]. unfold commit.
      rewrite <- (Nat.add_0_r (commit_calls fs)) at 1.
      rewrite (Hacc 0%nat c0 (Nat.lt_0_succ j) eq_refl).
      rewrite (IH j c e).
      * cbn [firebaseInitialized committed commit_calls firstn].
        rewrite <- app_assoc. cbn [app].
        rewrite (Nat.add_succ_r _ (S j)). reflexivity.
      * exact Hnth.
      * intros m c' Hm Hn. cbn [commit_calls].
        replace (S (commit_calls fs) + m)%nat
          with (commit_calls fs + S m)%nat by lia.
        apply Hacc; [lia|exact Hn].
      * cbn [commit_calls].
        replace (S (commit_calls fs) + j)%nat
          with (commit_calls fs + S j)%nat by lia.
        exact Hrej.
Qed.

End CommitChunks.

(** ** [addSensorDataBatch] and [addDublinBikesData] *)

Section Batches.

Import FirebaseConfig BatchCommitter.

Variable be : Backend.

Lemma getFirestore_ready fs :
  ready be fs = true ->
  getFirestore be fs =
  (Normal tt,
   {| firebaseInitialized := true;
      committed := committed fs;
      commit_calls := commit_calls fs |}).
Proof.
  unfold ready, getFirestore, initializeFirebase.
  destruct fs as [[|] cs n]; cbn; [reflexivity|].
  destruct (key_file_error be); [discriminate|reflexivity].
Qed.

Lemma getFirestore_not_ready fs :
  ready be fs = false ->
  exists e, key_file_error be = Some e /\ getFirestore be fs = (Throw e, fs).
Proof.
  unfold ready, getFirestore, initializeFirebase.
  destruct fs as [[|] cs n]; cbn; [discriminate|].
  destruct (key_file_error be) as [e|]; [|discriminate].
  intros _. exists e. split; reflexivity.
Qed.

(** When Firestore accepts every chunk, all the chunks are committed in
    order and the result counts them. *)
Lemma addSensorDataBatch_accepted fs dp :
  ready be fs = true ->
  (forall m c, nth_error (sensor_chunks dp) m = Some c ->
               rejects be (commit_calls fs + m) c = None) ->
  addSensorDataBatch be fs dp =
  ([("success", Js.VBool true);
    ("totalAdded", Js.VNum (Z.of_nat (List.length dp)));
    ("batches", Js.VNum (Z.of_nat (List.length (sensor_chunks dp))))],
   {| firebaseInitialized := true;
      committed := committed fs ++ sensor_chunks dp;
      commit_calls := commit_calls fs + List.length (sensor_chunks dp) |}).
Proof.
  intros Hready Hacc. unfold addSensorDataBatch.
  rewrite (getFirestore_ready fs Hready), batch_loop_from_start.
  rewrite commit_chunks_accepted by exact Hacc.
  cbn [app firebaseInitialized committed commit_calls].
  rewrite length_map. reflexivity.
Qed.

(** When Firebase cannot be initialised nothing is submitted. *)
Lemma addSensorDataBatch_not_ready fs dp :
  ready be fs = false ->
  exists e,
    addSensorDataBatch be fs dp =
    ([("success", Js.VBool false); ("error", Js.VStr e)], fs).
Proof.
  intros Hn. destruct (getFirestore_not_ready fs Hn) as [e [_ He]].
  exists e. unfold addSensorDataBatch. rewrite He. reflexivity.
Qed.

(** [addSensorDataBatch] never changes what Firestore already holds: the
    batches committed before the call are a prefix of those after it. *)
Lemma commit_chunks_keeps pending : forall results fs,
  exists added,
    committed (snd (commit_chunks be pending results fs)) =
    (committed fs ++ added)%list.
Proof.
  induction pending as [|c rest IH]; intros results fs.
  - exists []. simpl. rewrite app_nil_r. reflexivity.
  - cbn [commit_chunks]. unfold commit.
    destruct (rejects be (commit_calls fs) c) as [e|].
    + exists []. simpl. rewrite app_nil_r. reflexivity.
    + match goal with
      | |- context [commit_chunks be rest ?r ?f] =>
          destruct (IH r f) as [added Hadd]
      end.
      exists (c :: added). rewrite Hadd. cbn [committed].
      rewrite <- app_assoc. reflexivity.
Qed.

(** The station path: whatever the number of stations, one [commit()]
    call carrying one write per station. *)
Lemma addDublinBikesData_single_commit fs now stationsData :
  ready be fs = true ->
  let batch := map (station_write now) stationsData in
  let r := addDublinBikesData be fs now stationsData in
  commit_calls (snd r) = S (commit_calls fs) /\
  match rejects be (commit_calls fs) batch with
  | None =>
      committed (snd r) = (committed fs ++ [batch])%list /\
      Js.get "success" (fst r) = Js.VBool true
  | Some e =>
      committed (snd r) = committed fs /\
      fst r = [("success", Js.VBool false); ("error", Js.VStr e)]
  end.
Proof.
  intros Hready batch r. subst r batch. unfold addDublinBikesData.
  rewrite (getFirestore_ready fs Hready). unfold commit.
  cbn [commit_calls committed firebaseInitialized].
  destruct (rejects be (commit_calls fs) _) as [e|]; cbn; auto.
Qed.

End Batches.

(** C1. When Firestore rejects chunk number [j] (counted from 0) of
    [addSensorDataBatch], after accepting the chunks before it, the call
    returns exactly [{ success: false, error }] with the message of the
    rejection; the object has no [committedChunks] property.  The rejected
    chunk is the last one submitted ([j + 1] commit calls were made), and
    the [j] chunks committed before it remain in Firestore. *)
Theorem addSensorDataBatch_stops_at_rejection :
  forall (be : FirebaseConfig.Backend) (fs : FirebaseConfig.Firestore)
         (dataPoints : list SensorRecord) (j : nat)
         (c : list FirebaseConfig.Write) (e : string),
    BatchCommitter.ready be fs = true ->
    nth_error (BatchCommitter.sensor_chunks dataPoints) j = Some c ->
    (forall m c', (m < j)%nat ->
       nth_error (BatchCommitter.sensor_chunks dataPoints) m = Some c' ->
       FirebaseConfig.rejects be (FirebaseConfig.commit_calls fs + m) c' = None) ->
    FirebaseConfig.rejects be (FirebaseConfig.commit_calls fs + j) c = Some e ->
    let result := fst (FirebaseConfig.addSensorDataBatch be fs dataPoints) in
    let fs' := snd (FirebaseConfig.addSensorDataBatch be fs dataPoints) in
    result = [("success", Js.VBool false); ("error", Js.VStr e)] /\
    Js.get "committedChunks" result = Js.VUndefined /\
    FirebaseConfig.commit_calls fs' = (FirebaseConfig.commit_calls fs + S j)%nat /\
    FirebaseConfig.committed fs' =
      (FirebaseConfig.committed fs ++
       firstn j (BatchCommitter.sensor_chunks dataPoints))%list.
Proof.
  intros be fs dp j c e Hready Hnth Hacc Hrej result fs'.
  subst result fs'. unfold FirebaseConfig.addSensorDataBatch.
  rewrite (getFirestore_ready be fs Hready), batch_loop_from_start.
  rewrite (commit_chunks_rejected be _ j c e) by assumption.
  cbn. repeat split; reflexivity.
Qed.

(** C1 at work: 1500 readings, the second commit call rejected. *)
Lemma addSensorDataBatch_stops_at_rejection_witness :
  let r :=
    FirebaseConfig.addSensorDataBatch (Samples.rejecting_call 1)
      FirebaseConfig.initial_firestore (Samples.readings 1500) in
  fst r = [("success", Js.VBool false);
           ("error", Js.VStr "DEADLINE_EXCEEDED")] /\
  Js.get "committedChunks" (fst r) = Js.VUndefined /\
  FirebaseConfig.commit_calls (snd r) = 2%nat /\
  FirebaseConfig.committed (snd r) =
    firstn 1 (BatchCommitter.sensor_chunks (Samples.readings 1500)).
Proof.
  refine (addSensorDataBatch_stops_at_rejection (Samples.rejecting_call 1)
            FirebaseConfig.initial_firestore (Samples.readings 1500) 1
            (map FirebaseConfig.sensor_write
               (firstn 500 (skipn 500 (Samples.readings 1500))))
            "DEADLINE_EXCEEDED" _ _ _ _).
  - reflexivity.
  - vm_compute. reflexivity.
  - intros m c' Hm _. destruct m as [|m]; [reflexivity|lia].
  - reflexivity.
Defined.

(** C1 as the specification words it fails: with the second of three
    chunks rejected, one chunk is committed but the result carries no
    [committedChunks] equal to 1. *)
Lemma addSensorDataBatch_reports_no_committedChunks :
  let r :=
    FirebaseConfig.addSensorDataBatch (Samples.rejecting_call 1)
      FirebaseConfig.initial_firestore (Samples.readings 1500) in
  List.length (BatchCommitter.sensor_chunks (Samples.readings 1500)) = 3%nat /\
  List.length (FirebaseConfig.committed (snd r)) = 1%nat /\
  Js.get "success" (fst r) = Js.VBool false /\
  Js.get "committedChunks" (fst r) <> Js.VNum 1.
Proof.
  vm_compute. repeat split; discriminate.
Qed.

(** ** Chunk sizes on the two commit paths *)

Section ChunkSizes.

Import FirebaseConfig BatchCommitter.

Lemma chunks_fuel_sizes_of_length {A : Type} fuel size : forall l : list A,
  map (@List.length A) (chunks_fuel fuel size l) =
  chunk_sizes fuel size (List.length l).
Proof.
  induction fuel as [|fuel IH]; intros l; [reflexivity|].
  destruct l as [|x l']; [reflexivity|].
  cbn [chunks_fuel chunk_sizes map].
  rewrite IH, length_firstn, length_skipn. reflexivity.
Qed.

Lemma sensor_chunk_lengths dp :
  map (@List.length Write) (sensor_chunks dp) =
  chunk_sizes (List.length dp) BATCH_SIZE (List.length dp).
Proof.
  unfold sensor_chunks, chunks. rewrite map_map.
  rewrite <- chunks_fuel_sizes_of_length.
  apply map_ext. intros c. apply length_map.
Qed.

(** The chunks of the sensor path: at most 500 writes each, none empty,
    [ceil(n / 500)] of them, and together the writes of the input in
    order. *)
Lemma sensor_chunks_partition dp :
  List.concat (sensor_chunks dp) = map sensor_write dp /\
  Forall (fun c => 1 <= List.length c <= 500)%nat (sensor_chunks dp) /\
  List.length (sensor_chunks dp) = ((List.length dp + 499) / 500)%nat.
Proof.
  destruct (chunks_partition BATCH_SIZE (Nat.lt_0_succ _) dp)
    as [Hcat [Hsz Hlen]].
  unfold sensor_chunks. split; [|split].
  - rewrite <- concat_map. rewrite Hcat. reflexivity.
  - apply Forall_map. revert Hsz. apply Forall_impl.
    intros c Hc. rewrite length_map. exact Hc.
  - rewrite length_map, Hlen. unfold BATCH_SIZE.
    replace (List.length dp + 500 - 1)%nat with (List.length dp + 499)%nat
      by lia.
    reflexivity.
Qed.

(** 500 records: one chunk.  501 records: two chunks, of 500 and 1.
    No record: no chunk. *)
Lemma sensor_chunks_boundaries dp :
  (List.length dp = 500%nat ->
   map (@List.length Write) (sensor_chunks dp) = [500%nat]) /\
  (List.length dp = 501%nat ->
   map (@List.length Write) (sensor_chunks dp) = [500%nat; 1%nat]) /\
  (List.length dp = 0%nat -> sensor_chunks dp = []).
Proof.
  repeat split; intros H.
  - rewrite sensor_chunk_lengths, H. vm_compute. reflexivity.
  - rewrite sensor_chunk_lengths, H. vm_compute. reflexivity.
  - destruct dp; [reflexivity|discriminate].
Qed.

(** With no record, [addSensorDataBatch] submits nothing and succeeds
    (provided Firebase can be initialised). *)
Lemma addSensorDataBatch_empty be fs :
  ready be fs = true ->
  addSensorDataBatch be fs [] =
  ([("success", Js.VBool true); ("totalAdded", Js.VNum 0);
    ("batches", Js.VNum 0)],
   {| firebaseInitialized := true;
      committed := committed fs;
      commit_calls := commit_calls fs |}).
Proof.
  intros Hready. rewrite addSensorDataBatch_accepted.
  - cbn. rewrite app_nil_r, Nat.add_0_r. reflexivity.
  - exact Hready.
  - intros m c Hm. destruct m; discriminate.
Qed.

End ChunkSizes.

(** C2. The sensor path cuts 501 records into a batch of 500 and a batch
    of 1, but the station path does not chunk: [addDublinBikesData] with 501
    stations makes one commit call with a single batch of 501 writes.  A
    backend that enforces the limit of 500 writes per batch therefore
    rejects the whole station batch, while it accepts the same number of
    sensor records. *)
Theorem addDublinBikesData_not_chunked :
  let sensor :=
    FirebaseConfig.addSensorDataBatch Samples.accepting
      FirebaseConfig.initial_firestore (Samples.readings 501) in
  let station :=
    FirebaseConfig.addDublinBikesData Samples.accepting
      FirebaseConfig.initial_firestore 1700000000000 (Samples.stations 501) in
  let sensor_limited :=
    FirebaseConfig.addSensorDataBatch Samples.limit_enforcing
      FirebaseConfig.initial_firestore (Samples.readings 501) in
  let station_limited :=
    FirebaseConfig.addDublinBikesData Samples.limit_enforcing
      FirebaseConfig.initial_firestore 1700000000000 (Samples.stations 501) in
  map (@List.length _) (FirebaseConfig.committed (snd sensor)) =
    [500%nat; 1%nat] /\
  map (@List.length _) (FirebaseConfig.committed (snd station)) =
    [501%nat] /\
  FirebaseConfig.commit_calls (snd station) = 1%nat /\
  Js.get "success" (fst sensor_limited) = Js.VBool true /\
  fst station_limited =
    [("success", Js.VBool false);
     ("error", Js.VStr "maximum 500 writes allowed per request")] /\
  FirebaseConfig.committed (snd station_limited) = [].
Proof.
  vm_compute. repeat split; reflexivity.
Qed.

(** ** Printing integers *)

Lemma to_int_not_nil z :
  Z.to_int z <> Decimal.Pos Decimal.Nil /\
  Z.to_int z <> Decimal.Neg Decimal.Nil.
Proof.
  destruct z as [|p|p]; cbn; split; try discriminate;
    intros H; injection H as H;
    apply (DecimalPos.Unsigned.to_uint_nonnil p); exact H.
Qed.

(** Distinct integers print differently. *)
Lemma string_of_Z_inj a b : Js.string_of_Z a = Js.string_of_Z b -> a = b.
Proof.
  unfold Js.string_of_Z. intros H.
  apply (f_equal NilZero.int_of_string) in H.
  destruct (to_int_not_nil a) as [A1 A2].
  destruct (to_int_not_nil b) as [B1 B2].
  rewrite !NilZero.isi in H by assumption.
  injection H as H. apply DecimalZ.to_int_inj. exact H.
Qed.

(** ** The session buffer *)

Section SessionBuffer.

Import Server.

Variable be : FirebaseConfig.Backend.

(** What POST /api/data does with an array. *)
Lemma post_data_array l st fs :
  post_data be (DataArray l) st fs =
  (json_response 200
     [("success", Js.VBool true);
      ("totalPoints",
       Js.VNum (Z.of_nat (List.length (sensorData st ++ l))));
      ("message",
       Js.VStr
         ("Received " ++ Js.string_of_Z (Z.of_nat (List.length l)) ++
          " points"));
      ("storedToCloud", Js.VBool true)],
   [if Js.truthy
         (Js.get "success" (fst (FirebaseConfig.addSensorDataBatch be fs l)))
    then LogStored (List.length l) (List.length (sensorData st ++ l))
    else LogStorageFailed
           (Js.get "error" (fst (FirebaseConfig.addSensorDataBatch be fs l)))],
   {| sensorData := sensorData st ++ l; sessionId := sessionId st |},
   snd (FirebaseConfig.addSensorDataBatch be fs l)).
Proof.
  unfold post_data. cbn.
  destruct (FirebaseConfig.addSensorDataBatch be fs l) as [result fs1].
  reflexivity.
Qed.

(** What POST /api/data does with anything else. *)
Lemma post_data_not_array data st fs :
  isArray data = false ->
  post_data be data st fs =
  (json_response 400
     [("success", Js.VBool false); ("error", Js.VStr "Invalid data format")],
   [], st, fs).
Proof.
  intros H. unfold post_data. rewrite H.
  rewrite orb_true_r. reflexivity.
Qed.

Lemma post_data_buffer data st fs :
  let '(_, _, st', _) := post_data be data st fs in
  sensorData st' = (sensorData st ++ elements data)%list /\
  sessionId st' = sessionId st.
Proof.
  destruct data;
    try (rewrite post_data_not_array by reflexivity; cbn;
         rewrite app_nil_r; split; reflexivity).
  rewrite post_data_array. cbn. split; reflexivity.
Qed.

(** A run of appends leaves the concatenation of the arrays received,
    after what the buffer held, and keeps the session identifier. *)
Lemma post_all_buffer bodies : forall st fs,
  let '(_, st', _) := post_all be bodies st fs in
  sensorData st' =
    (sensorData st ++ List.concat (map elements bodies))%list /\
  sessionId st' = sessionId st.
Proof.
  induction bodies as [|data rest IH]; intros st fs.
  - cbn. rewrite app_nil_r. split; reflexivity.
  - cbn [post_all map List.concat].
    pose proof (post_data_buffer data st fs) as Hone.
    destruct (post_data be data st fs) as [[[resp log] st1] fs1].
    specialize (IH st1 fs1).
    destruct (post_all be rest st1 fs1) as [[resps st2] fs2].
    destruct Hone as [H1 H2]. destruct IH as [H3 H4].
    rewrite H3, H1, H4, H2, app_assoc. split; reflexivity.
Qed.

(** Every array posted is answered 200 with [success: true]. *)
Lemma post_all_arrays_succeed arrays : forall st fs,
  let '(resps, _, _) := post_all be (map DataArray arrays) st fs in
  List.length resps = List.length arrays /\
  Forall (fun r => status_code r = 200 /\
                   Js.get "success" (body_object r) = Js.VBool true) resps.
Proof.
  induction arrays as [|l rest IH]; intros st fs.
  - cbn. split; [reflexivity|constructor].
  - cbn [post_all map]. rewrite post_data_array.
    match goal with
    | |- context [post_all be _ ?s ?f] =>
        specialize (IH s f); destruct (post_all be _ s f) as [[resps st2] fs2]
    end.
    destruct IH as [Hlen Hall]. cbn [List.length]. split.
    + rewrite Hlen. reflexivity.
    + constructor; [split; reflexivity|exact Hall].
Qed.

End SessionBuffer.

(** C3. POST /api/data answers [storedToCloud: true] although the
    Firestore write failed.  With a backend whose key cannot be loaded, and
    with one that rejects the commit, the handler appends the reading to
    the buffer, logs the storage failure, commits nothing, and still reports
    [storedToCloud: true]. *)
Theorem post_data_reports_stored_when_sink_failed :
  let unreachable :=
    Server.post_data Samples.unreachable
      (Server.DataArray [Samples.bare 1000]) Server.initial_state
      FirebaseConfig.initial_firestore in
  let rejected :=
    Server.post_data (Samples.rejecting_call 0)
      (Server.DataArray [Samples.bare 1000]) Server.initial_state
      FirebaseConfig.initial_firestore in
  (let '(resp, log, st, fs) := unreachable in
   Server.status_code resp = 200 /\
   Js.get "storedToCloud" (Server.body_object resp) = Js.VBool true /\
   log = [Server.LogStorageFailed
            (Js.VStr "Cannot find module './firebase-admin-key.json'")] /\
   FirebaseConfig.committed fs = [] /\
   Server.sensorData st = [Samples.bare 1000]) /\
  (let '(resp, log, st, fs) := rejected in
   Server.status_code resp = 200 /\
   Js.get "storedToCloud" (Server.body_object resp) = Js.VBool true /\
   log = [Server.LogStorageFailed (Js.VStr "DEADLINE_EXCEEDED")] /\
   FirebaseConfig.committed fs = [] /\
   Server.sensorData st = [Samples.bare 1000]).
Proof.
  vm_compute. repeat split; reflexivity.
Qed.

(** The flag does not depend on the backend at all, and the append happens
    whatever the backend does. *)
Lemma post_data_flag_constant be l st fs :
  let '(resp, _, st', _) := Server.post_data be (Server.DataArray l) st fs in
  Js.get "storedToCloud" (Server.body_object resp) = Js.VBool true /\
  Server.status_code resp = 200 /\
  Server.sensorData st' = (Server.sensorData st ++ l)%list.
Proof.
  rewrite post_data_array. cbn. repeat split; reflexivity.
Qed.

(** C5. POST /api/data answers 400 exactly when [data] is not an array
    (missing, null, a scalar or a single object), and then neither the
    buffer nor Firestore changes; an array is answered 200 and its records
    are appended, in order, to the buffer.  After a session start, a run of
    requests leaves in the buffer the concatenation of the arrays received,
    and GET /api/data/count reports its length. *)
Theorem post_data_validates_and_accumulates :
  forall (be : FirebaseConfig.Backend) (data : Server.DataField)
         (st st0 : Server.State) (fs fs0 : FirebaseConfig.Firestore)
         (now : Z) (bodies : list Server.DataField),
    (let '(resp, _, st', fs') := Server.post_data be data st fs in
     match data with
     | Server.DataArray l =>
         Server.status_code resp = 200 /\
         Server.sensorData st' = (Server.sensorData st ++ l)%list /\
         Server.get_count st' =
           Server.json_response 200
             [("count",
               Js.VNum
                 (Z.of_nat (List.length (Server.sensorData st) +
                            List.length l)));
              ("sessionId", Server.session_value (Server.sessionId st))]
     | _ =>
         Server.status_code resp = 400 /\
         Server.body_object resp =
           [("success", Js.VBool false);
            ("error", Js.VStr "Invalid data format")] /\
         st' = st /\ fs' = fs
     end) /\
    (let started := snd (Server.post_session_start now st0) in
     let '(_, st', _) := Server.post_all be bodies started fs0 in
     Server.sensorData st' = List.concat (map Server.elements bodies) /\
     Server.get_count st' =
       Server.json_response 200
         [("count",
           Js.VNum
             (Z.of_nat
                (List.length (List.concat (map Server.elements bodies)))));
          ("sessionId", Js.VStr (Js.string_of_Z now))]).
Proof.
  intros be data st st0 fs fs0 now bodies. split.
  - destruct data;
      try (rewrite post_data_not_array by reflexivity;
           repeat split; reflexivity).
    rewrite post_data_array. unfold Server.get_count.
    cbn [Server.sensorData Server.sessionId Server.status_code
         Server.json_response].
    rewrite length_app. repeat split; reflexivity.
  - cbn zeta.
    pose proof (post_all_buffer be bodies
                  (snd (Server.post_session_start now st0)) fs0) as H.
    destruct (Server.post_all be bodies _ fs0) as [[resps st'] fs'].
    destruct H as [Hdata Hid]. cbn in Hdata, Hid.
    unfold Server.get_count. rewrite Hdata, Hid. split; reflexivity.
Qed.

(** C6. POST /api/session/start sets the identifier to the decimal text
    of [Date.now()]: two starts get the same identifier exactly when their
    clock readings are equal.  Whatever the buffer held, it is empty after
    the start and the count is 0. *)
Theorem post_session_start_id_and_reset :
  forall (now1 now2 : Z) (st1 st2 : Server.State),
    let a := snd (Server.post_session_start now1 st1) in
    let b := snd (Server.post_session_start now2 st2) in
    Server.sessionId a = Some (Js.string_of_Z now1) /\
    Js.get "sessionId"
      (Server.body_object (fst (Server.post_session_start now1 st1))) =
      Js.VStr (Js.string_of_Z now1) /\
    (Server.sessionId a = Server.sessionId b <-> now1 = now2) /\
    Server.sensorData a = [] /\
    Js.get "count" (Server.body_object (Server.get_count a)) = Js.VNum 0.
Proof.
  intros now1 now2 st1 st2 a b. subst a b. cbn.
  repeat split; try reflexivity.
  - intros H. injection H as H. apply string_of_Z_inj, H.
  - intros ->. reflexivity.
Qed.

(** Two starts one millisecond apart get distinct identifiers. *)
Lemma post_session_start_id_and_reset_witness :
  let a := snd (Server.post_session_start 1700000000000 Server.initial_state) in
  let b := snd (Server.post_session_start 1700000000001 a) in
  Server.sessionId a <> Server.sessionId b /\
  Server.sensorData b = [].
Proof.
  cbv zeta.
  pose proof (post_session_start_id_and_reset 1700000000000 1700000000001
                Server.initial_state
                (snd (Server.post_session_start 1700000000000
                        Server.initial_state))) as H.
  cbv zeta in H. destruct H as [_ [_ [Hiff _]]].
  split; [|reflexivity].
  intros Heq. apply Hiff in Heq. discriminate Heq.
Defined.

(** C6 as the specification words it fails: two consecutive starts within
    the same millisecond return the same identifier. *)
Lemma post_session_start_same_millisecond_collides :
  let '(r1, st1) :=
    Server.post_session_start 1700000000000 Server.initial_state in
  let '(r2, st2) := Server.post_session_start 1700000000000 st1 in
  Js.get "sessionId" (Server.body_object r1) =
    Js.get "sessionId" (Server.body_object r2) /\
  Server.sessionId st1 = Server.sessionId st2 /\
  Server.sessionId st2 = Some "1700000000000".
Proof.
  vm_compute. repeat split; reflexivity.
Qed.

(** C10. Before any session start the identifier is null and the buffer
    empty; arrays posted in that state are all answered 200 with
    [success: true], their records accumulate in the buffer, and
    GET /api/data/count reports their number with [sessionId: null]. *)
Theorem post_data_without_session :
  forall (be : FirebaseConfig.Backend) (fs : FirebaseConfig.Firestore)
         (arrays : list (list SensorRecord)),
    Server.sessionId Server.initial_state = None /\
    Server.sensorData Server.initial_state = [] /\
    let '(resps, st, _) :=
      Server.post_all be (map Server.DataArray arrays)
        Server.initial_state fs in
    List.length resps = List.length arrays /\
    Forall (fun r => Server.status_code r = 200 /\
                     Js.get "success" (Server.body_object r) = Js.VBool true)
      resps /\
    Server.sensorData st = List.concat arrays /\
    Server.get_count st =
      Server.json_response 200
        [("count", Js.VNum (Z.of_nat (List.length (List.concat arrays))));
         ("sessionId", Js.VNull)].
Proof.
  intros be fs arrays. split; [reflexivity|]. split; [reflexivity|].
  pose proof (post_all_arrays_succeed be arrays Server.initial_state fs) as Hok.
  pose proof (post_all_buffer be (map Server.DataArray arrays)
                Server.initial_state fs) as Hbuf.
  destruct (Server.post_all be _ Server.initial_state fs)
    as [[resps st] fs'].
  destruct Hok as [Hlen Hall]. destruct Hbuf as [Hdata Hid].
  rewrite map_map in Hdata. cbn in Hdata, Hid.
  rewrite map_id in Hdata.
  unfold Server.get_count. rewrite Hdata, Hid.
  repeat split; assumption || reflexivity.
Qed.

(** ** The poller *)

Section Poller.

Import DublinBikesFetcher.

Variable env : Environment.
Variable be : FirebaseConfig.Backend.

(** [addDublinBikesData] reports success only after its commit went
    through, and otherwise returns [{ success: false, error }]. *)
Lemma addDublinBikesData_outcome fs now stationsData :
  let r := FirebaseConfig.addDublinBikesData be fs now stationsData in
  (Js.truthy (Js.get "success" (fst r)) = true /\
   FirebaseConfig.committed (snd r) =
     (FirebaseConfig.committed fs ++
      [map (FirebaseConfig.station_write now) stationsData])%list) \/
  (exists e,
     fst r = [("success", Js.VBool false); ("error", Js.VStr e)] /\
     FirebaseConfig.committed (snd r) = FirebaseConfig.committed fs).
Proof.
  unfold FirebaseConfig.addDublinBikesData, FirebaseConfig.getFirestore,
    FirebaseConfig.initializeFirebase, FirebaseConfig.commit.
  destruct fs as [[|] cs n]; cbn.
  - destruct (FirebaseConfig.rejects be n _) as [e|]; cbn.
    + right. exists e. split; reflexivity.
    + left. split; reflexivity.
  - destruct (FirebaseConfig.key_file_error be) as [e|]; cbn.
    + right. exists e. split; reflexivity.
    + destruct (FirebaseConfig.rejects be n _) as [e|]; cbn.
      * right. exists e. split; reflexivity.
      * left. split; reflexivity.
Qed.

(** With Firestore at hand, [addDublinBikesData] succeeds or fails as its
    one commit does. *)
Lemma addDublinBikesData_ready fs now stationsData :
  BatchCommitter.ready be fs = true ->
  FirebaseConfig.addDublinBikesData be fs now stationsData =
  match FirebaseConfig.rejects be (FirebaseConfig.commit_calls fs)
          (map (FirebaseConfig.station_write now) stationsData) with
  | Some e =>
      ([("success", Js.VBool false); ("error", Js.VStr e)],
       {| FirebaseConfig.firebaseInitialized := true;
          FirebaseConfig.committed := FirebaseConfig.committed fs;
          FirebaseConfig.commit_calls := S (FirebaseConfig.commit_calls fs) |})
  | None =>
      ([("success", Js.VBool true);
        ("stationsAdded", Js.VNum (Z.of_nat (List.length stationsData)));
        ("timestamp", Js.VStr (Js.now_iso_string now))],
       {| FirebaseConfig.firebaseInitialized := true;
          FirebaseConfig.committed :=
            FirebaseConfig.committed fs ++
            [map (FirebaseConfig.station_write now) stationsData];
          FirebaseConfig.commit_calls := S (FirebaseConfig.commit_calls fs) |})
  end.
Proof.
  intros Hready. unfold FirebaseConfig.addDublinBikesData.
  rewrite (getFirestore_ready be fs Hready). unfold FirebaseConfig.commit.
  cbn [FirebaseConfig.commit_calls FirebaseConfig.committed
       FirebaseConfig.firebaseInitialized].
  destruct (FirebaseConfig.rejects be (FirebaseConfig.commit_calls fs) _);
    reflexivity.
Qed.

(** The [catch] block: an error status, the counter and the time of the
    last success untouched. *)
Lemma on_error_stats message w :
  let r := on_error message w in
  fst r = [("success", Js.VBool false); ("error", Js.VStr message)] /\
  fetchCount (stats (snd r)) = fetchCount (stats w) /\
  lastFetchTime (stats (snd r)) = lastFetchTime (stats w) /\
  lastFetchStatus (stats (snd r)) = "Error: " ++ message /\
  firestore (snd r) = firestore w /\
  requests (snd r) = requests w.
Proof. cbn. repeat split; reflexivity. Qed.

End Poller.

(** C7. A tick of [fetchDublinBikes] either reports success, and then
    [fetchCount] grew by one, [lastFetchTime] is the time of completion,
    [lastFetchStatus] is the success message with the number of stations
    and Firestore holds one more batch; or it reports failure, and then
    [fetchCount] and [lastFetchTime] are unchanged and [lastFetchStatus] is
    "Error: " followed by the error returned.  Without an API key the
    status is "Error: Missing API key" and no request is made; on a
    response outside 200..299 the status names the HTTP status and nothing
    is committed; and when the stations arrive but Firestore rejects the
    commit, the status carries the message of the rejection and the counter
    stays, while an accepted commit makes the tick a success. *)
Theorem fetchDublinBikes_stats :
  forall (env : DublinBikesFetcher.Environment) (be : FirebaseConfig.Backend)
         (now_batch now_done : Z) (w : DublinBikesFetcher.World),
    let r := DublinBikesFetcher.fetchDublinBikes env be now_batch now_done w in
    let s := DublinBikesFetcher.stats w in
    let s' := DublinBikesFetcher.stats (snd r) in
    let fs := DublinBikesFetcher.firestore w in
    let fs' := DublinBikesFetcher.firestore (snd r) in
    match Js.get "success" (fst r) with
    | Js.VBool true =>
        DublinBikesFetcher.fetchCount s' =
          S (DublinBikesFetcher.fetchCount s) /\
        DublinBikesFetcher.lastFetchTime s' =
          Some (Js.now_iso_string now_done) /\
        (exists stations,
           DublinBikesFetcher.lastFetchStatus s' =
             "Success: " ++
             Js.string_of_Z (Z.of_nat (List.length stations)) ++
             " stations" /\
           FirebaseConfig.committed fs' =
             (FirebaseConfig.committed fs ++
              [map (FirebaseConfig.station_write now_batch) stations])%list)
    | _ =>
        DublinBikesFetcher.fetchCount s' = DublinBikesFetcher.fetchCount s /\
        DublinBikesFetcher.lastFetchTime s' =
          DublinBikesFetcher.lastFetchTime s /\
        (exists e,
           Js.get "error" (fst r) = Js.VStr e /\
           DublinBikesFetcher.lastFetchStatus s' = "Error: " ++ e) /\
        FirebaseConfig.committed fs' = FirebaseConfig.committed fs
    end /\
    match DublinBikesFetcher.JCDECAUX_API_KEY env with
    | None | Some "" =>
        Js.get "success" (fst r) = Js.VBool false /\
        DublinBikesFetcher.lastFetchStatus s' = "Error: Missing API key" /\
        DublinBikesFetcher.requests (snd r) = DublinBikesFetcher.requests w /\
        fs' = fs
    | Some key =>
        DublinBikesFetcher.requests (snd r) =
          (DublinBikesFetcher.requests w ++
           [DublinBikesFetcher.request_url key])%list /\
        match DublinBikesFetcher.upstream env
                (DublinBikesFetcher.request_url key) with
        | DublinBikesFetcher.NetworkError e =>
            Js.get "success" (fst r) = Js.VBool false /\
            DublinBikesFetcher.lastFetchStatus s' = "Error: " ++ e /\
            fs' = fs
        | DublinBikesFetcher.Responded response =>
            if DublinBikesFetcher.ok response then
              match DublinBikesFetcher.json response with
              | DublinBikesFetcher.StationArray stations =>
                  match DublinBikesFetcher.map_transform stations with
                  | Normal transformed =>
                      if BatchCommitter.ready be fs then
                        match FirebaseConfig.rejects be
                                (FirebaseConfig.commit_calls fs)
                                (map (FirebaseConfig.station_write now_batch)
                                   transformed) with
                        | Some e =>
                            Js.get "success" (fst r) = Js.VBool false /\
                            DublinBikesFetcher.lastFetchStatus s' =
                              "Error: " ++ e /\
                            DublinBikesFetcher.fetchCount s' =
                              DublinBikesFetcher.fetchCount s
                        | None =>
                            Js.get "success" (fst r) = Js.VBool true /\
                            DublinBikesFetcher.fetchCount s' =
                              S (DublinBikesFetcher.fetchCount s)
                        end
                      else True
                  | Throw _ => True
                  end
              | _ => True
              end
            else
              Js.get "success" (fst r) = Js.VBool false /\
              DublinBikesFetcher.lastFetchStatus s' =
                "Error: API returned status " ++
                Js.string_of_Z (DublinBikesFetcher.http_status response) ++
                ": " ++ DublinBikesFetcher.statusText response /\
              fs' = fs
        end
    end.
Proof.
  intros env be nb nd w r s s' fs fs'. subst r s s' fs fs'.
  unfold DublinBikesFetcher.fetchDublinBikes.
  destruct (DublinBikesFetcher.JCDECAUX_API_KEY env) as [[|c key]|].
  1, 3: cbn; repeat split; try reflexivity;
        exists "Missing API key"; split; reflexivity.
  set (url := DublinBikesFetcher.request_url (String c key)).
  cbv zeta.
  destruct (DublinBikesFetcher.upstream env url) as [e|response].
  { cbn. repeat split; try reflexivity. exists e. split; reflexivity. }
  destruct (DublinBikesFetcher.ok response).
  2: { cbn. repeat split; try reflexivity.
       eexists. split; reflexivity. }
  cbn [negb].
  destruct (DublinBikesFetcher.json response) as [e| |stations].
  1, 2: cbn; repeat split; try reflexivity; eexists; split; reflexivity.
  destruct (DublinBikesFetcher.map_transform stations) as [ts|e].
  2: { cbn. repeat split; try reflexivity. exists e. split; reflexivity. }
  cbn [DublinBikesFetcher.firestore DublinBikesFetcher.stats
       DublinBikesFetcher.requests].
  destruct (BatchCommitter.ready be (DublinBikesFetcher.firestore w))
    eqn:Hready.
  - rewrite (addDublinBikesData_ready be _ nb ts Hready).
    destruct (FirebaseConfig.rejects be _ _) as [e|]; cbn;
      repeat split; try reflexivity.
    + exists e. split; reflexivity.
    + exists ts. split; reflexivity.
  - pose proof (addDublinBikesData_outcome be
                  (DublinBikesFetcher.firestore w) nb ts) as Hout.
    cbv zeta in Hout.
    destruct (FirebaseConfig.addDublinBikesData be
                (DublinBikesFetcher.firestore w) nb ts) as [result fs1].
    cbn [fst snd] in Hout.
    destruct Hout as [[Hok Hcommitted]|[e [Hres Hcommitted]]].
    + rewrite Hok. cbn. repeat split; try reflexivity.
      exists ts. split; [reflexivity|exact Hcommitted].
    + subst result. cbn. repeat split; try reflexivity; try exact Hcommitted.
      exists e. split; reflexivity.
Qed.

(** ** The CSV export *)

Lemma string_app_assoc (a b c : string) : (a ++ b) ++ c = a ++ (b ++ c).
Proof. induction a as [|ch a IH]; cbn; [reflexivity|rewrite IH; reflexivity]. Qed.

Section CsvExport.

Import Server.

Lemma insert_by_timestamp_perm x l :
  Permutation (insert_by_timestamp x l) (x :: l).
Proof.
  induction l as [|y l IH]; cbn; [reflexivity|].
  destruct (timestamp x <=? timestamp y); [reflexivity|].
  rewrite IH. apply perm_swap.
Qed.

Lemma sort_by_timestamp_perm l : Permutation (sort_by_timestamp l) l.
Proof.
  induction l as [|x l IH]; cbn; [reflexivity|].
  rewrite insert_by_timestamp_perm, IH. reflexivity.
Qed.

Lemma insert_by_timestamp_sorted x l :
  StronglySorted by_timestamp l ->
  StronglySorted by_timestamp (insert_by_timestamp x l).
Proof.
  induction 1 as [|y l Hl IH Hy]; cbn.
  - repeat constructor.
  - destruct (Z.leb_spec (timestamp x) (timestamp y)) as [Hle|Hgt].
    + constructor; [constructor; assumption|].
      constructor; [exact Hle|].
      revert Hy. apply Forall_impl. unfold by_timestamp. intros; lia.
    + constructor; [exact IH|].
      rewrite insert_by_timestamp_perm.
      constructor; [unfold by_timestamp; lia|exact Hy].
Qed.

Lemma sort_by_timestamp_sorted l :
  StronglySorted by_timestamp (sort_by_timestamp l).
Proof.
  induction l as [|x l IH]; cbn; [constructor|].
  apply insert_by_timestamp_sorted, IH.
Qed.



Lemma toISOString_valid t :
  valid_timestamp t = true -> Js.toISOString t = Some (Js.iso_string t).
Proof.
  unfold valid_timestamp, Js.toISOString. intros H.
  apply andb_true_iff in H. destruct H as [H0 H1].
  apply Z.leb_le in H0, H1.
  destruct (Z.ltb_spec Js.max_time_value (Z.abs t)); [lia|reflexivity].
Qed.

Lemma row_valid startTime point :
  valid_timestamp (timestamp point) = true ->
  row startTime point = Some (cells_of startTime point).
Proof.
  intros H. unfold row. rewrite (toISOString_valid _ H). reflexivity.
Qed.

Lemma append_rows_valid startTime points : forall csv,
  Forall (fun p => valid_timestamp (timestamp p) = true) points ->
  append_rows startTime points csv =
  Some (csv ++ csv_lines (map (cells_of startTime) points)).
Proof.
  induction points as [|p rest IH]; intros csv Hall.
  - cbn. f_equal. induction csv as [|c csv IHc]; cbn; congruence.
  - inversion Hall as [|? ? Hp Hrest]; subst.
    cbn [append_rows map csv_lines]. rewrite (row_valid _ _ Hp).
    rewrite IH by exact Hrest.
    rewrite !string_app_assoc. reflexivity.
Qed.

End CsvExport.

(** Readings with timestamps 1000 then 500, exported in a session. *)
Example get_download_1000_then_500 :
  let st :=
    snd (fst
      (Server.post_data Samples.accepting
         (Server.DataArray [Samples.bare 1000; Samples.bare 500])
         (snd (Server.post_session_start 1700000000000 Server.initial_state))
         FirebaseConfig.initial_firestore)) in
  Server.sensorData st = [Samples.bare 1000; Samples.bare 500] /\
  fst (Server.get_download st) =
    {| Server.status_code := 200;
       Server.headers :=
         [("Content-Type", "text/csv");
          ("Content-Disposition",
           "attachment; filename=sensor_data_1700000000000.csv")];
       Server.body :=
         Server.TextBody
           ("timestamp,datetime,seconds_elapsed,latitude,longitude,altitude,speed,accuracy,heading,accel_x,accel_y,accel_z,accel_magnitude"
            ++ Js.newline ++
            "500,1970-01-01T00:00:00.500Z,0.000,,,,,,,,,," ++ Js.newline ++
            "1000,1970-01-01T00:00:01.000Z,0.500,,,,,,,,,," ++ Js.newline) |} /\
  snd (Server.get_download st) = st.
Proof.
  vm_compute. repeat split; reflexivity.
Qed.

(** A measurement that is present but equal to 0 prints as nothing, like a
    missing one. *)
Lemma cell_zero_is_empty (x : Js.number) :
  Js.digits x = 0%N -> Server.cell (Some x) = Server.cell None.
Proof.
  intros H. unfold Server.cell, Js.number_truthy. rewrite H. reflexivity.
Qed.

(** C8. A measurement that is present with value 0 is exported as the
    empty string, not as "0": in the row of a reading with speed, heading
    and x acceleration equal to 0, those three cells are empty, exactly like
    the cell of the missing magnitude, while the other measurements print
    their value. *)
Theorem row_drops_zero_measurements :
  Js.number_to_string Samples.zero = "0" /\
  speed Samples.standing_still = Some Samples.zero /\
  Server.cell (speed Samples.standing_still) = "" /\
  Server.row 1000 Samples.standing_still =
    Some ["1000"; "1970-01-01T00:00:01.000Z"; "0.000";
          "53.3498"; "-6.2603"; "10"; ""; "5"; ""; ""; "0.3"; "9.8"; ""] /\
  Server.body_text
    (fst (Server.get_download
            {| Server.sensorData := [Samples.standing_still];
               Server.sessionId := None |})) =
    Js.join "," Server.headers_row ++ Js.newline ++
    "1000,1970-01-01T00:00:01.000Z,0.000,53.3498,-6.2603,10,,5,,,0.3,9.8," ++
    Js.newline.
Proof.
  vm_compute. repeat split; reflexivity.
Qed.

(** ** The limit of the Firestore queries *)














(** ** Sample ticks of the poller *)

Example fetchDublinBikes_samples :
  let no_key :=
    {| DublinBikesFetcher.JCDECAUX_API_KEY := None;
       DublinBikesFetcher.upstream := fun _ =>
         DublinBikesFetcher.NetworkError "unreachable" |} in
  let answering status text body :=
    {| DublinBikesFetcher.JCDECAUX_API_KEY := Some "k";
       DublinBikesFetcher.upstream := fun _ =>
         DublinBikesFetcher.Responded
           {| DublinBikesFetcher.http_status := status;
              DublinBikesFetcher.statusText := text;
              DublinBikesFetcher.json := body |} |} in
  let two :=
    DublinBikesFetcher.StationArray
      [Samples.upstream_station 1; Samples.upstream_station 2] in
  let tick env be :=
    snd (DublinBikesFetcher.fetchDublinBikes env be 1700000000000
           1700000000250 DublinBikesFetcher.initial_world) in
  DublinBikesFetcher.stats (tick no_key Samples.accepting) =
    {| DublinBikesFetcher.fetchCount := 0;
       DublinBikesFetcher.lastFetchTime := None;
       DublinBikesFetcher.lastFetchStatus := "Error: Missing API key" |} /\
  DublinBikesFetcher.requests (tick no_key Samples.accepting) = [] /\
  DublinBikesFetcher.stats
    (tick (answering 503 "Service Unavailable" two) Samples.accepting) =
    {| DublinBikesFetcher.fetchCount := 0;
       DublinBikesFetcher.lastFetchTime := None;
       DublinBikesFetcher.lastFetchStatus :=
         "Error: API returned status 503: Service Unavailable" |} /\
  FirebaseConfig.committed
    (DublinBikesFetcher.firestore
       (tick (answering 503 "Service Unavailable" two) Samples.accepting)) =
    [] /\
  DublinBikesFetcher.stats
    (tick (answering 200 "OK" two) (Samples.rejecting_call 0)) =
    {| DublinBikesFetcher.fetchCount := 0;
       DublinBikesFetcher.lastFetchTime := None;
       DublinBikesFetcher.lastFetchStatus := "Error: DEADLINE_EXCEEDED" |} /\
  DublinBikesFetcher.stats (tick (answering 200 "OK" two) Samples.accepting) =
    {| DublinBikesFetcher.fetchCount := 1;
       DublinBikesFetcher.lastFetchTime := Some "2023-11-14T22:13:20.250Z";
       DublinBikesFetcher.lastFetchStatus := "Success: 2 stations" |} /\
  DublinBikesFetcher.requests (tick (answering 200 "OK" two) Samples.accepting) =
    ["https://api.jcdecaux.com/vls/v1/stations?contract=dublin&apiKey=k"].
Proof.
  vm_compute. repeat split; reflexivity.
Qed.

(** * Further properties of the code *)

(** ** What the Firestore writers do to the store *)

Section Writers.

Import FirebaseConfig BatchCommitter.

Variable be : Backend.

(** Whatever the backend answers, the committer stores a prefix of the
    pending chunks, and all of them exactly when it returns normally. *)
Lemma commit_chunks_prefix pending : forall results fs,
  exists k,
    (k <= List.length pending)%nat /\
    committed (snd (commit_chunks be pending results fs)) =
      (committed fs ++ firstn k pending)%list /\
    firebaseInitialized (snd (commit_chunks be pending results fs)) =
      firebaseInitialized fs /\
    match fst (commit_chunks be pending results fs) with
    | Normal res =>
        k = List.length pending /\
        List.length res = (List.length results + k)%nat /\
        commit_calls (snd (commit_chunks be pending results fs)) =
          (commit_calls fs + k)%nat
    | Throw _ =>
        (k < List.length pending)%nat /\
        commit_calls (snd (commit_chunks be pending results fs)) =
          (commit_calls fs + S k)%nat
    end.
Proof.
  induction pending as [|c rest IH]; intros results fs.
  - exists 0%nat. cbn. rewrite app_nil_r.
    repeat split; try reflexivity; lia.
  - cbn [commit_chunks]. unfold commit.
    destruct (rejects be (commit_calls fs) c) as [e|].
    + exists 0%nat. cbn. rewrite app_nil_r.
      repeat split; try reflexivity; lia.
    + match goal with
      | |- context [commit_chunks be rest ?r ?f] =>
          destruct (IH r f) as [k [Hk [Hc [Hi Hres]]]]
      end.
      exists (S k). cbn [committed commit_calls firebaseInitialized] in *.
      rewrite Hc, Hi, <- app_assoc. cbn [List.length firstn app].
      split; [lia|]. split; [reflexivity|]. split; [reflexivity|].
      destruct (fst (commit_chunks be rest _ _)) as [res|e].
      * destruct Hres as [-> [Hlen Hcalls]].
        rewrite length_app in Hlen. cbn [List.length] in Hlen.
        repeat split; lia.
      * destruct Hres as [Hlt Hcalls]. split; lia.
Qed.

(** The chunks of that prefix were accepted, each at its own commit; when
    the committer throws, the chunk after the prefix is the one the backend
    rejected, and the error thrown is the error of that rejection. *)
Lemma commit_chunks_outcome pending : forall results fs,
  exists k,
    (k <= List.length pending)%nat /\
    committed (snd (commit_chunks be pending results fs)) =
      (committed fs ++ firstn k pending)%list /\
    (forall m c, (m < k)%nat -> nth_error pending m = Some c ->
                 rejects be (commit_calls fs + m) c = None) /\
    match fst (commit_chunks be pending results fs) with
    | Normal res =>
        k = List.length pending /\
        commit_calls (snd (commit_chunks be pending results fs)) =
          (commit_calls fs + k)%nat
    | Throw e =>
        (exists c, nth_error pending k = Some c /\
                   rejects be (commit_calls fs + k) c = Some e) /\
        commit_calls (snd (commit_chunks be pending results fs)) =
          (commit_calls fs + S k)%nat
    end.
Proof.
  induction pending as [|c rest IH]; intros results fs.
  - exists 0%nat. cbn. rewrite app_nil_r.
    split; [lia|]. split; [reflexivity|].
    split; [intros m c Hm; lia|]. split; [reflexivity|lia].
  - cbn [commit_chunks]. unfold commit.
    destruct (rejects be (commit_calls fs) c) as [e|] eqn:Hrej.
    + exists 0%nat. cbn. rewrite app_nil_r.
      split; [lia|]. split; [reflexivity|].
      split; [intros m c' Hm; lia|].
      split; [|lia]. exists c. rewrite Nat.add_0_r.
      split; [reflexivity|exact Hrej].
    + match goal with
      | |- context [commit_chunks be rest ?r ?f] =>
          destruct (IH r f) as [k [Hk [Hc [Hacc Hres]]]]
      end.
      exists (S k). cbn [committed commit_calls firebaseInitialized] in *.
      rewrite Hc, <- app_assoc. cbn [List.length firstn app].
      split; [lia|]. split; [reflexivity|].
      split.
      { intros m c' Hm Hnth. destruct m as [|m].
        - cbn in Hnth. injection Hnth as <-.
          rewrite Nat.add_0_r. exact Hrej.
        - cbn in Hnth.
          replace (commit_calls fs + S m)%nat
            with (S (commit_calls fs) + m)%nat by lia.
          apply Hacc; [lia|exact Hnth]. }
      destruct (fst (commit_chunks be rest _ _)) as [res|e].
      * destruct Hres as [-> Hcalls]. split; lia.
      * destruct Hres as [[c' [Hnth Hrej']] Hcalls].
        split; [|lia]. exists c'. cbn [nth_error].
        split; [exact Hnth|].
        replace (commit_calls fs + S k)%nat
          with (S (commit_calls fs) + k)%nat by lia.
        exact Hrej'.
Qed.

(** The outcome of [getFirestore]: Firebase is at hand afterwards, or the
    key failed to load and nothing changed. *)
Lemma getFirestore_cases fs :
  (ready be fs = true /\
   getFirestore be fs =
     (Normal tt,
      {| firebaseInitialized := true;
         committed := committed fs;
         commit_calls := commit_calls fs |})) \/
  (ready be fs = false /\ firebaseInitialized fs = false /\
   exists e, key_file_error be = Some e /\
             getFirestore be fs = (Throw e, fs)).
Proof.
  destruct (ready be fs) eqn:Hr.
  - left. split; [reflexivity|]. apply getFirestore_ready, Hr.
  - right. split; [reflexivity|]. split.
    + unfold ready in Hr. apply orb_false_iff in Hr. apply Hr.
    + apply getFirestore_not_ready, Hr.
Qed.

End Writers.

(** X1. Whatever Firestore answers, what [addSensorDataBatch] adds to the
    store is a prefix of the chunks of its input, in order, after what was
    stored before, and every chunk of that prefix was accepted by
    Firestore.  One of three things happens.  Firebase is at hand and
    every chunk was added: it returns success with the number of records
    and of chunks.  Firebase is at hand and Firestore rejected the chunk
    that follows the prefix: it returns [{ success: false, error }] with
    the error of that rejection, having made one commit more than it added
    chunks.  Firebase cannot be initialised: it returns
    [{ success: false, error }] with the error of the key file and leaves
    the store as it was, also when the input is empty. *)
Theorem addSensorDataBatch_adds_chunk_prefix :
  forall (be : FirebaseConfig.Backend) (fs : FirebaseConfig.Firestore)
         (dataPoints : list SensorRecord),
    let r := FirebaseConfig.addSensorDataBatch be fs dataPoints in
    let chunks := BatchCommitter.sensor_chunks dataPoints in
    exists k,
      (k <= List.length chunks)%nat /\
      FirebaseConfig.committed (snd r) =
        (FirebaseConfig.committed fs ++ firstn k chunks)%list /\
      (forall m c,
         (m < k)%nat -> nth_error chunks m = Some c ->
         FirebaseConfig.rejects be (FirebaseConfig.commit_calls fs + m) c =
           None) /\
      ((BatchCommitter.ready be fs = true /\
        k = List.length chunks /\
        fst r =
          [("success", Js.VBool true);
           ("totalAdded", Js.VNum (Z.of_nat (List.length dataPoints)));
           ("batches", Js.VNum (Z.of_nat (List.length chunks)))] /\
        FirebaseConfig.commit_calls (snd r) =
          (FirebaseConfig.commit_calls fs + k)%nat) \/
       (BatchCommitter.ready be fs = true /\
        exists c e,
          nth_error chunks k = Some c /\
          FirebaseConfig.rejects be (FirebaseConfig.commit_calls fs + k) c =
            Some e /\
          fst r = [("success", Js.VBool false); ("error", Js.VStr e)] /\
          FirebaseConfig.commit_calls (snd r) =
            (FirebaseConfig.commit_calls fs + S k)%nat) \/
       (BatchCommitter.ready be fs = false /\
        k = 0%nat /\
        exists e,
          FirebaseConfig.key_file_error be = Some e /\
          fst r = [("success", Js.VBool false); ("error", Js.VStr e)] /\
          snd r = fs)).
Proof.
  intros be fs dp r chunks. subst r chunks.
  unfold FirebaseConfig.addSensorDataBatch.
  destruct (getFirestore_cases be fs) as [[Hr Hg]|[Hr [_ [e [He Hg]]]]];
    rewrite Hg.
  - rewrite batch_loop_from_start.
    match goal with
    | |- context [BatchCommitter.commit_chunks be ?p ?r ?f] =>
        destruct (commit_chunks_outcome be p r f)
          as [k [Hk [Hc [Hacc Hres]]]];
        pose proof (commit_chunks_prefix be p r f) as Hlen;
        destruct (BatchCommitter.commit_chunks be p r f) as [[res|e] fs2]
    end; cbn [fst snd FirebaseConfig.committed FirebaseConfig.commit_calls]
           in *; exists k.
    + destruct Hres as [-> Hcalls].
      destruct Hlen as [k' [_ [_ [_ [Hk' [Hlen _]]]]]].
      cbn [List.length] in Hlen.
      split; [lia|]. split; [exact Hc|]. split; [exact Hacc|].
      left. split; [exact Hr|]. split; [reflexivity|].
      split; [|exact Hcalls].
      rewrite Hlen, <- Hk'. reflexivity.
    + destruct Hres as [[c [Hnth Hrej]] Hcalls].
      split; [lia|]. split; [exact Hc|]. split; [exact Hacc|].
      right. left. split; [exact Hr|]. exists c, e.
      repeat split; assumption.
  - exists 0%nat. cbn. rewrite app_nil_r.
    split; [lia|]. split; [reflexivity|].
    split; [intros m c Hm; lia|].
    right. right. split; [exact Hr|]. split; [reflexivity|].
    exists e. split; [exact He|]. split; reflexivity.
Qed.

(** Without a key file an empty input fails too, although none of its
    chunks, of which there is none, was left out. *)
Example addSensorDataBatch_empty_without_key :
  FirebaseConfig.addSensorDataBatch Samples.unreachable
    FirebaseConfig.initial_firestore [] =
  ([("success", Js.VBool false);
    ("error", Js.VStr "Cannot find module './firebase-admin-key.json'")],
   FirebaseConfig.initial_firestore).
Proof. vm_compute. reflexivity. Qed.

(** X2. When Firebase is at hand and Firestore accepts every commit,
    [addSensorDataBatch] stores one write per record, in the order of the
    input, in batches of at most 500 writes of which none is empty, and
    returns the number of records and [ceil(n / 500)] as the number of
    batches. *)
Theorem addSensorDataBatch_stores_every_record :
  forall (be : FirebaseConfig.Backend) (fs : FirebaseConfig.Firestore)
         (dataPoints : list SensorRecord),
    BatchCommitter.ready be fs = true ->
    (forall n batch, FirebaseConfig.rejects be n batch = None) ->
    let r := FirebaseConfig.addSensorDataBatch be fs dataPoints in
    exists added,
      FirebaseConfig.committed (snd r) =
        (FirebaseConfig.committed fs ++ added)%list /\
      List.concat added = map FirebaseConfig.sensor_write dataPoints /\
      Forall (fun batch => 1 <= List.length batch <= 500)%nat added /\
      fst r =
        [("success", Js.VBool true);
         ("totalAdded", Js.VNum (Z.of_nat (List.length dataPoints)));
         ("batches",
          Js.VNum (Z.of_nat ((List.length dataPoints + 499) / 500)))].
Proof.
  intros be fs dp Hready Hacc r. subst r.
  destruct (sensor_chunks_partition dp) as [Hcat [Hsz Hlen]].
  exists (BatchCommitter.sensor_chunks dp).
  rewrite addSensorDataBatch_accepted by (intros; auto).
  cbn [fst snd FirebaseConfig.committed]. rewrite Hlen.
  repeat split; assumption || reflexivity.
Qed.

Lemma addSensorDataBatch_stores_every_record_witness :
  let r :=
    FirebaseConfig.addSensorDataBatch Samples.accepting
      FirebaseConfig.initial_firestore (Samples.readings 1201) in
  exists added,
    FirebaseConfig.committed (snd r) = added /\
    List.concat added =
      map FirebaseConfig.sensor_write (Samples.readings 1201) /\
    Forall (fun batch => 1 <= List.length batch <= 500)%nat added /\
    fst r =
      [("success", Js.VBool true); ("totalAdded", Js.VNum 1201);
       ("batches", Js.VNum 3)].
Proof.
  exact (addSensorDataBatch_stores_every_record Samples.accepting
           FirebaseConfig.initial_firestore (Samples.readings 1201)
           eq_refl (fun _ _ => eq_refl)).
Defined.

(** X3. When Firebase is not initialised and the service-account key does
    not load, each of the three writers returns [{ success: false, error }]
    with the message of the failed load, makes no commit call and leaves
    the store as it was. *)
Theorem writers_fail_without_firebase :
  forall (be : FirebaseConfig.Backend) (fs : FirebaseConfig.Firestore)
         (docId : string) (dataPoint : SensorRecord)
         (dataPoints : list SensorRecord) (now : Z)
         (stationsData : list StationRecord),
    BatchCommitter.ready be fs = false ->
    exists e,
      FirebaseConfig.key_file_error be = Some e /\
      FirebaseConfig.addSensorData be fs docId dataPoint =
        ([("success", Js.VBool false); ("error", Js.VStr e)], fs) /\
      FirebaseConfig.addSensorDataBatch be fs dataPoints =
        ([("success", Js.VBool false); ("error", Js.VStr e)], fs) /\
      FirebaseConfig.addDublinBikesData be fs now stationsData =
        ([("success", Js.VBool false); ("error", Js.VStr e)], fs).
Proof.
  intros be fs docId p dp now sd Hn.
  destruct (getFirestore_not_ready be fs Hn) as [e [Hkey Hg]].
  exists e. split; [exact Hkey|].
  unfold FirebaseConfig.addSensorData, FirebaseConfig.addSensorDataBatch,
    FirebaseConfig.addDublinBikesData.
  rewrite Hg. repeat split; reflexivity.
Qed.

Lemma writers_fail_without_firebase_witness :
  exists e,
    FirebaseConfig.key_file_error Samples.unreachable = Some e /\
    FirebaseConfig.addSensorData Samples.unreachable
      FirebaseConfig.initial_firestore "doc" (Samples.bare 1) =
      ([("success", Js.VBool false); ("error", Js.VStr e)],
       FirebaseConfig.initial_firestore) /\
    FirebaseConfig.addSensorDataBatch Samples.unreachable
      FirebaseConfig.initial_firestore (Samples.readings 600) =
      ([("success", Js.VBool false); ("error", Js.VStr e)],
       FirebaseConfig.initial_firestore) /\
    FirebaseConfig.addDublinBikesData Samples.unreachable
      FirebaseConfig.initial_firestore 1700000000000 (Samples.stations 3) =
      ([("success", Js.VBool false); ("error", Js.VStr e)],
       FirebaseConfig.initial_firestore).
Proof.
  exact (writers_fail_without_firebase Samples.unreachable
           FirebaseConfig.initial_firestore "doc" (Samples.bare 1)
           (Samples.readings 600) 1700000000000 (Samples.stations 3)
           eq_refl).
Defined.

(** X5. None of the three writers removes or rewrites what Firestore
    holds: the batches committed before the call are still there, in the
    same order, followed by what the call added; the count of commit calls
    never decreases; and Firebase, once initialised, stays initialised. *)
Theorem writers_only_append :
  forall (be : FirebaseConfig.Backend) (fs : FirebaseConfig.Firestore)
         (docId : string) (dataPoint : SensorRecord)
         (dataPoints : list SensorRecord) (now : Z)
         (stationsData : list StationRecord),
    Forall
      (fun fs' =>
         (exists added,
            FirebaseConfig.committed fs' =
              (FirebaseConfig.committed fs ++ added)%list) /\
         (FirebaseConfig.commit_calls fs <=
          FirebaseConfig.commit_calls fs')%nat /\
         implb (FirebaseConfig.firebaseInitialized fs)
           (FirebaseConfig.firebaseInitialized fs') = true)
      [snd (FirebaseConfig.addSensorData be fs docId dataPoint);
       snd (FirebaseConfig.addSensorDataBatch be fs dataPoints);
       snd (FirebaseConfig.addDublinBikesData be fs now stationsData)].
Proof.
  intros be fs docId p dp now sd.
  assert (Hsame : (exists added : list (list FirebaseConfig.Write),
                     FirebaseConfig.committed fs =
                       (FirebaseConfig.committed fs ++ added)%list) /\
                  (FirebaseConfig.commit_calls fs <=
                   FirebaseConfig.commit_calls fs)%nat /\
                  implb (FirebaseConfig.firebaseInitialized fs)
                    (FirebaseConfig.firebaseInitialized fs) = true).
  { split; [exists []; rewrite app_nil_r; reflexivity|].
    split; [lia|]. destruct (FirebaseConfig.firebaseInitialized fs);
      reflexivity. }
  unfold FirebaseConfig.addSensorData, FirebaseConfig.addSensorDataBatch,
    FirebaseConfig.addDublinBikesData.
  destruct (getFirestore_cases be fs) as [[_ Hg]|[_ [_ [e [_ Hg]]]]];
    rewrite Hg.
  2: { repeat constructor; apply Hsame. }
  repeat constructor.
  - unfold FirebaseConfig.commit. cbn [FirebaseConfig.commit_calls].
    destruct (FirebaseConfig.rejects be _ _); cbn.
    + exists []. rewrite app_nil_r. reflexivity.
    + eexists. reflexivity.
  - unfold FirebaseConfig.commit.
    destruct (FirebaseConfig.rejects be _ _); cbn; lia.
  - unfold FirebaseConfig.commit.
    destruct (FirebaseConfig.rejects be _ _); cbn;
      apply implb_true_iff; reflexivity.
  - rewrite batch_loop_from_start.
    match goal with
    | |- context [BatchCommitter.commit_chunks be ?p ?r ?f] =>
        destruct (commit_chunks_prefix be p r f) as [k [_ [Hc _]]];
        destruct (BatchCommitter.commit_chunks be p r f) as [[res|e] fs2]
    end; cbn [fst snd FirebaseConfig.committed] in *;
      eexists; exact Hc.
  - rewrite batch_loop_from_start.
    match goal with
    | |- context [BatchCommitter.commit_chunks be ?p ?r ?f] =>
        destruct (commit_chunks_prefix be p r f) as [k [_ [_ [_ Hres]]]];
        destruct (BatchCommitter.commit_chunks be p r f) as [[res|e] fs2]
    end; cbn [fst snd FirebaseConfig.commit_calls] in *; lia.
  - rewrite batch_loop_from_start.
    match goal with
    | |- context [BatchCommitter.commit_chunks be ?p ?r ?f] =>
        destruct (commit_chunks_prefix be p r f) as [k [_ [_ [Hi _]]]];
        destruct (BatchCommitter.commit_chunks be p r f) as [[res|e] fs2]
    end; cbn [fst snd FirebaseConfig.firebaseInitialized] in *;
      rewrite Hi; apply implb_true_iff; reflexivity.
  - unfold FirebaseConfig.commit. cbn [FirebaseConfig.commit_calls].
    destruct (FirebaseConfig.rejects be _ _); cbn.
    + exists []. rewrite app_nil_r. reflexivity.
    + eexists. reflexivity.
  - unfold FirebaseConfig.commit.
    destruct (FirebaseConfig.rejects be _ _); cbn; lia.
  - unfold FirebaseConfig.commit.
    destruct (FirebaseConfig.rejects be _ _); cbn;
      apply implb_true_iff; reflexivity.
Qed.

(** X6. [addDublinBikesData] stores all the stations of a call or none of
    them: either the store is unchanged and the call returns
    [{ success: false, error }], or exactly one batch was added, with one
    write per station in the order given, every write addressed to the
    collection "dublin_bikes" and carrying the same fetch time, and the
    call returns the number of stations. *)
Theorem addDublinBikesData_all_or_nothing :
  forall (be : FirebaseConfig.Backend) (fs : FirebaseConfig.Firestore)
         (now : Z) (stationsData : list StationRecord),
    let r := FirebaseConfig.addDublinBikesData be fs now stationsData in
    (exists e,
       fst r = [("success", Js.VBool false); ("error", Js.VStr e)] /\
       FirebaseConfig.committed (snd r) = FirebaseConfig.committed fs) \/
    (exists batch,
       FirebaseConfig.committed (snd r) =
         (FirebaseConfig.committed fs ++ [batch])%list /\
       map FirebaseConfig.data batch =
         map FirebaseConfig.StationPayload stationsData /\
       Forall (fun w =>
                 FirebaseConfig.collection w = "dublin_bikes" /\
                 FirebaseConfig.fetched_at w = Some now) batch /\
       Js.get "success" (fst r) = Js.VBool true /\
       Js.get "stationsAdded" (fst r) =
         Js.VNum (Z.of_nat (List.length stationsData))).
Proof.
  intros be fs now sd r. subst r.
  unfold FirebaseConfig.addDublinBikesData.
  destruct (getFirestore_cases be fs) as [[_ Hg]|[_ [_ [e [_ Hg]]]]];
    rewrite Hg.
  2: { left. exists e. split; reflexivity. }
  unfold FirebaseConfig.commit. cbn [FirebaseConfig.commit_calls].
  destruct (FirebaseConfig.rejects be _ _) as [e|].
  - left. exists e. split; reflexivity.
  - right. eexists. cbn. split; [reflexivity|].
    split; [rewrite map_map; reflexivity|].
    split; [|split; reflexivity].
    apply Forall_map. apply Forall_forall. intros s _. split; reflexivity.
Qed.

(** ** The poller over its runs *)

Section Ticks.

Import DublinBikesFetcher.

Variable be : FirebaseConfig.Backend.

(** The two ways a tick can end. *)
Lemma fetchDublinBikes_outcome env now_batch now_done w :
  let r := fetchDublinBikes env be now_batch now_done w in
  requests (snd r) = (requests w ++ requested (JCDECAUX_API_KEY env))%list /\
  ((exists key response stations ts,
      JCDECAUX_API_KEY env = Some key /\
      upstream env (request_url key) = Responded response /\
      ok response = true /\
      json response = StationArray stations /\
      map_transform stations = Normal ts /\
      fst r =
        [("success", Js.VBool true);
         ("stationsCount", Js.VNum (Z.of_nat (List.length ts)));
         ("fetchCount", Js.VNum (Z.of_nat (S (fetchCount (stats w)))))] /\
      stats (snd r) =
        {| fetchCount := S (fetchCount (stats w));
           lastFetchTime := Some (Js.now_iso_string now_done);
           lastFetchStatus :=
             "Success: " ++ Js.string_of_Z (Z.of_nat (List.length ts)) ++
             " stations" |} /\
      FirebaseConfig.committed (firestore (snd r)) =
        (FirebaseConfig.committed (firestore w) ++
         [map (FirebaseConfig.station_write now_batch) ts])%list) \/
   (exists e,
      fst r = [("success", Js.VBool false); ("error", Js.VStr e)] /\
      stats (snd r) = set_status (stats w) ("Error: " ++ e) /\
      FirebaseConfig.committed (firestore (snd r)) =
        FirebaseConfig.committed (firestore w))).
Proof.
  unfold fetchDublinBikes, requested.
  destruct (JCDECAUX_API_KEY env) as [[|c key]|].
  1, 3: cbn; rewrite app_nil_r; split; [reflexivity|];
        right; exists "Missing API key"; repeat split; reflexivity.
  set (url := request_url (String c key)). cbv zeta.
  destruct (upstream env url) as [e|response] eqn:Hup.
  { cbn. split; [reflexivity|]. right. exists e. repeat split; reflexivity. }
  destruct (ok response) eqn:Hok.
  2: { cbn. split; [reflexivity|]. right. eexists.
       repeat split; reflexivity. }
  cbn [negb].
  destruct (json response) as [e| |stations] eqn:Hjson.
  1, 2: cbn; (split; [reflexivity|]); right; eexists;
        repeat split; reflexivity.
  destruct (map_transform stations) as [ts|e] eqn:Hmap.
  2: { cbn. split; [reflexivity|]. right. exists e.
       repeat split; reflexivity. }
  cbn [firestore stats requests].
  pose proof (addDublinBikesData_outcome be (firestore w) now_batch ts)
    as Hout.
  cbv zeta in Hout.
  destruct (FirebaseConfig.addDublinBikesData be (firestore w) now_batch ts)
    as [result fs1].
  cbn [fst snd] in Hout.
  destruct Hout as [[Hsucc Hcommitted]|[e [Hres Hcommitted]]].
  - rewrite Hsucc. cbn. split; [reflexivity|]. left.
    exists (String c key), response, stations, ts.
    repeat split; try reflexivity; assumption.
  - subst result. cbn. split; [reflexivity|]. right. exists e.
    repeat split; try reflexivity; assumption.
Qed.

(** A list of stations is transformed as a whole or not at all. *)
Lemma map_transform_cases stations :
  match map_transform stations with
  | Normal ts =>
      forallb has_position stations = true /\
      List.length ts = List.length stations /\
      map station_number ts = map up_number stations /\
      map station_name ts = map up_name stations /\
      Forall (fun t => status t <> "" /\ last_update t <> Some 0) ts
  | Throw e =>
      forallb has_position stations = false /\
      e = "Cannot read properties of undefined (reading 'lat')"
  end.
Proof.
  induction stations as [|s rest IH]; [cbn; repeat split; constructor|].
  cbn [map_transform forallb]. unfold transform.
  replace (has_position s)
    with (match up_position s with Some _ => true | None => false end)
    by reflexivity.
  destruct (up_position s) as [p|]; [|split; reflexivity].
  destruct (map_transform rest) as [ts|e].
  - destruct IH as [Hall [Hlen [Hnum [Hname Hdef]]]].
    cbn. rewrite Hall, Hlen, Hnum, Hname.
    repeat split; try reflexivity.
    constructor; [|exact Hdef]. cbn. split.
    + unfold string_or. destruct (up_status s) as [st|]; [|discriminate].
      destruct (String.eqb_spec st ""); [discriminate|assumption].
    + destruct (up_last_update s) as [t|]; [|discriminate].
      destruct (Z.eqb_spec t 0); [discriminate|].
      intros H. injection H as H. contradiction.
  - destruct IH as [Hall He]. cbn. rewrite Hall. split; [reflexivity|exact He].
Qed.

End Ticks.

(** X7. A tick that reports success stored exactly what the upstream
    service sent: one batch, with one write per station of the response, in
    the order and with the station numbers of the response, and
    [stationsCount] is the number of stations received.  A tick that does
    not report success stored nothing. *)
Theorem fetchDublinBikes_stores_the_response :
  forall (env : DublinBikesFetcher.Environment) (be : FirebaseConfig.Backend)
         (now_batch now_done : Z) (w : DublinBikesFetcher.World),
    let r := DublinBikesFetcher.fetchDublinBikes env be now_batch now_done w in
    let before :=
      FirebaseConfig.committed (DublinBikesFetcher.firestore w) in
    let after :=
      FirebaseConfig.committed (DublinBikesFetcher.firestore (snd r)) in
    if DublinBikesFetcher.succeeded (fst r) then
      exists key response stations ts,
        DublinBikesFetcher.JCDECAUX_API_KEY env = Some key /\
        DublinBikesFetcher.upstream env
          (DublinBikesFetcher.request_url key) =
          DublinBikesFetcher.Responded response /\
        DublinBikesFetcher.json response =
          DublinBikesFetcher.StationArray stations /\
        after =
          (before ++ [map (FirebaseConfig.station_write now_batch) ts])%list /\
        List.length ts = List.length stations /\
        map station_number ts = map up_number stations /\
        Js.get "stationsCount" (fst r) =
          Js.VNum (Z.of_nat (List.length stations))
    else after = before.
Proof.
  intros env be nb nd w r before after. subst r before after.
  destruct (fetchDublinBikes_outcome be env nb nd w) as [_ H].
  cbv zeta in H.
  destruct H as [[key [response [stations [ts H]]]]|[e [Hres [_ Hc]]]].
  - destruct H as [Hkey [Hup [_ [Hjson [Hmap [Hres [_ Hc]]]]]]].
    rewrite Hres. cbn [DublinBikesFetcher.succeeded Js.get String.eqb
                         Ascii.eqb Bool.eqb Js.truthy].
    pose proof (map_transform_cases stations) as Hcases.
    rewrite Hmap in Hcases. destruct Hcases as [_ [Hlen [Hnum _]]].
    exists key, response, stations, ts. rewrite <- Hlen.
    repeat split; assumption || reflexivity.
  - rewrite Hres. exact Hc.
Qed.

(** X8. One station without a position discards the whole tick: when the
    upstream service answers 2xx with an array in which some station has no
    [position], the tick stores nothing, not even the well-formed stations,
    fails with the TypeError message, and leaves [fetchCount] as it was. *)
Theorem fetchDublinBikes_rejects_missing_position :
  forall (env : DublinBikesFetcher.Environment) (be : FirebaseConfig.Backend)
         (now_batch now_done : Z) (w : DublinBikesFetcher.World)
         (c : ascii) (key : string)
         (response : DublinBikesFetcher.HttpResponse)
         (stations : list UpstreamStation),
    DublinBikesFetcher.JCDECAUX_API_KEY env = Some (String c key) ->
    DublinBikesFetcher.upstream env
      (DublinBikesFetcher.request_url (String c key)) =
      DublinBikesFetcher.Responded response ->
    DublinBikesFetcher.ok response = true ->
    DublinBikesFetcher.json response =
      DublinBikesFetcher.StationArray stations ->
    forallb DublinBikesFetcher.has_position stations = false ->
    let r := DublinBikesFetcher.fetchDublinBikes env be now_batch now_done w in
    fst r =
      [("success", Js.VBool false);
       ("error",
        Js.VStr "Cannot read properties of undefined (reading 'lat')")] /\
    DublinBikesFetcher.firestore (snd r) = DublinBikesFetcher.firestore w /\
    DublinBikesFetcher.fetchCount (DublinBikesFetcher.stats (snd r)) =
      DublinBikesFetcher.fetchCount (DublinBikesFetcher.stats w) /\
    DublinBikesFetcher.lastFetchStatus (DublinBikesFetcher.stats (snd r)) =
      "Error: Cannot read properties of undefined (reading 'lat')".
Proof.
  intros env be nb nd w c key response stations Hkey Hup Hok Hjson Hpos r.
  subst r. unfold DublinBikesFetcher.fetchDublinBikes.
  rewrite Hkey. cbv zeta. rewrite Hup, Hok. cbn [negb]. rewrite Hjson.
  pose proof (map_transform_cases stations) as Hcases.
  destruct (DublinBikesFetcher.map_transform stations) as [ts|e].
  - destruct Hcases as [Hall _]. rewrite Hall in Hpos. discriminate.
  - destruct Hcases as [_ ->]. cbn. repeat split; reflexivity.
Qed.

Lemma fetchDublinBikes_rejects_missing_position_witness :
  let response :=
    Samples.answer 200 "OK"
      (DublinBikesFetcher.StationArray
         [Samples.upstream_station 1; Samples.no_position;
          Samples.upstream_station 3]) in
  let r :=
    DublinBikesFetcher.fetchDublinBikes (Samples.answering response)
      Samples.accepting 1700000000000 1700000000250
      DublinBikesFetcher.initial_world in
  fst r =
    [("success", Js.VBool false);
     ("error",
      Js.VStr "Cannot read properties of undefined (reading 'lat')")] /\
  DublinBikesFetcher.firestore (snd r) =
    DublinBikesFetcher.firestore DublinBikesFetcher.initial_world /\
  DublinBikesFetcher.fetchCount (DublinBikesFetcher.stats (snd r)) =
    DublinBikesFetcher.fetchCount
      (DublinBikesFetcher.stats DublinBikesFetcher.initial_world) /\
  DublinBikesFetcher.lastFetchStatus (DublinBikesFetcher.stats (snd r)) =
    "Error: Cannot read properties of undefined (reading 'lat')".
Proof.
  exact (fetchDublinBikes_rejects_missing_position
           (Samples.answering
              (Samples.answer 200 "OK"
                 (DublinBikesFetcher.StationArray
                    [Samples.upstream_station 1; Samples.no_position;
                     Samples.upstream_station 3])))
           Samples.accepting 1700000000000 1700000000250
           DublinBikesFetcher.initial_world "k"%char ""
           (Samples.answer 200 "OK"
              (DublinBikesFetcher.StationArray
                 [Samples.upstream_station 1; Samples.no_position;
                  Samples.upstream_station 3]))
           [Samples.upstream_station 1; Samples.no_position;
            Samples.upstream_station 3]
           eq_refl eq_refl eq_refl eq_refl eq_refl).
Defined.

Section Runs.

Import DublinBikesFetcher.

Variable key : option string.
Variable be : FirebaseConfig.Backend.

(** A tick keeps the link between the counter and the time of the last
    success, and always leaves the status "Error: " followed by a message
    or "Success: " followed by a number of stations. *)
Lemma tick_stats_invariant t w :
  let w' :=
    snd (fetchDublinBikes
           {| JCDECAUX_API_KEY := key; upstream := tick_upstream t |}
           be (tick_now_batch t) (tick_now_done t) w) in
  (fetchCount (stats w) <= fetchCount (stats w'))%nat /\
  (fetchCount (stats w') = fetchCount (stats w) /\
   lastFetchTime (stats w') = lastFetchTime (stats w) \/
   (0 < fetchCount (stats w'))%nat /\
   lastFetchTime (stats w') = Some (Js.now_iso_string (tick_now_done t))) /\
  ((exists e, lastFetchStatus (stats w') = "Error: " ++ e) \/
   (exists n : nat,
      lastFetchStatus (stats w') =
      "Success: " ++ Js.string_of_Z (Z.of_nat n) ++ " stations")).
Proof.
  destruct (fetchDublinBikes_outcome be
              {| JCDECAUX_API_KEY := key; upstream := tick_upstream t |}
              (tick_now_batch t) (tick_now_done t) w) as [_ H].
  cbv zeta in *.
  destruct H as [[k [response [stations [ts H]]]]|[e [_ [Hst _]]]].
  - destruct H as [_ [_ [_ [_ [_ [_ [Hst _]]]]]]]. rewrite Hst. cbn.
    split; [lia|]. split; [right; split; [lia|reflexivity]|].
    right. exists (List.length ts). reflexivity.
  - rewrite Hst. cbn. split; [lia|].
    split; [left; split; reflexivity|].
    left. exists e. reflexivity.
Qed.

End Runs.

(** X9. Over any sequence of ticks, every tick returns a result,
    [fetchCount] grows by the number of ticks that reported success, which
    is also the number of batches Firestore gained, and the requests sent
    are one per tick to the one URL built from the key (none without a
    key). *)
Theorem run_ticks_counts :
  forall (key : option string) (be : FirebaseConfig.Backend)
         (ticks : list DublinBikesFetcher.Tick)
         (w : DublinBikesFetcher.World),
    let r := DublinBikesFetcher.run_ticks key be ticks w in
    let successes :=
      List.length (filter DublinBikesFetcher.succeeded (fst r)) in
    List.length (fst r) = List.length ticks /\
    DublinBikesFetcher.fetchCount (DublinBikesFetcher.stats (snd r)) =
      (DublinBikesFetcher.fetchCount (DublinBikesFetcher.stats w) +
       successes)%nat /\
    List.length
      (FirebaseConfig.committed (DublinBikesFetcher.firestore (snd r))) =
      (List.length
         (FirebaseConfig.committed (DublinBikesFetcher.firestore w)) +
       successes)%nat /\
    DublinBikesFetcher.requests (snd r) =
      (DublinBikesFetcher.requests w ++
       List.concat
         (map (fun _ => DublinBikesFetcher.requested key) ticks))%list.
Proof.
  intros key be ticks. induction ticks as [|t rest IH]; intros w.
  - cbn. rewrite app_nil_r. repeat split; lia.
  - cbn [DublinBikesFetcher.run_ticks].
    pose proof (fetchDublinBikes_outcome be
                  {| DublinBikesFetcher.JCDECAUX_API_KEY := key;
                     DublinBikesFetcher.upstream :=
                       DublinBikesFetcher.tick_upstream t |}
                  (DublinBikesFetcher.tick_now_batch t)
                  (DublinBikesFetcher.tick_now_done t) w) as Hone.
    cbv zeta in Hone.
    destruct (DublinBikesFetcher.fetchDublinBikes _ be _ _ w)
      as [result w1].
    specialize (IH w1). cbv zeta in IH.
    destruct (DublinBikesFetcher.run_ticks key be rest w1)
      as [results w2].
    cbn [fst snd] in *.
    destruct IH as [Hlen [Hcount [Hstore Hreq]]].
    destruct Hone as [Hreq1 Hone].
    cbn [DublinBikesFetcher.JCDECAUX_API_KEY] in Hreq1.
    cbn [List.length map List.concat filter].
    rewrite Hreq, Hreq1, <- app_assoc. split; [lia|].
    destruct Hone as [[k [response [stations [ts H]]]]|[e [Hres [Hst Hc]]]].
    + destruct H as [_ [_ [_ [_ [_ [Hres [Hst Hc]]]]]]].
      rewrite Hres at 1 2. cbn [DublinBikesFetcher.succeeded Js.get
        String.eqb Ascii.eqb Bool.eqb Js.truthy List.length].
      rewrite Hcount, Hstore, Hst, Hc, length_app. cbn.
      repeat split; lia.
    + rewrite Hres at 1 2. cbn [DublinBikesFetcher.succeeded Js.get
        String.eqb Ascii.eqb Bool.eqb Js.truthy].
      rewrite Hcount, Hstore, Hst, Hc. cbn.
      repeat split; lia.
Qed.

(** X10. Without an API key (undefined or empty) the poller is inert
    however long it runs: every tick returns the "Missing API key" failure,
    no request is sent, Firestore is untouched and [fetchCount] and
    [lastFetchTime] stay as they were. *)
Theorem run_ticks_without_key :
  forall (be : FirebaseConfig.Backend)
         (ticks : list DublinBikesFetcher.Tick)
         (w : DublinBikesFetcher.World),
    Forall
      (fun key =>
         let r := DublinBikesFetcher.run_ticks key be ticks w in
         fst r =
           map (fun _ =>
                  [("success", Js.VBool false);
                   ("error", Js.VStr "Missing API key")]) ticks /\
         DublinBikesFetcher.requests (snd r) =
           DublinBikesFetcher.requests w /\
         DublinBikesFetcher.firestore (snd r) =
           DublinBikesFetcher.firestore w /\
         DublinBikesFetcher.fetchCount (DublinBikesFetcher.stats (snd r)) =
           DublinBikesFetcher.fetchCount (DublinBikesFetcher.stats w) /\
         DublinBikesFetcher.lastFetchTime
           (DublinBikesFetcher.stats (snd r)) =
           DublinBikesFetcher.lastFetchTime (DublinBikesFetcher.stats w))
      [None; Some ""].
Proof.
  intros be ticks.
  assert (H : forall key, key = None \/ key = Some "" ->
            forall w,
              let r := DublinBikesFetcher.run_ticks key be ticks w in
              fst r =
                map (fun _ =>
                       [("success", Js.VBool false);
                        ("error", Js.VStr "Missing API key")]) ticks /\
              DublinBikesFetcher.requests (snd r) =
                DublinBikesFetcher.requests w /\
              DublinBikesFetcher.firestore (snd r) =
                DublinBikesFetcher.firestore w /\
              DublinBikesFetcher.fetchCount
                (DublinBikesFetcher.stats (snd r)) =
                DublinBikesFetcher.fetchCount (DublinBikesFetcher.stats w) /\
              DublinBikesFetcher.lastFetchTime
                (DublinBikesFetcher.stats (snd r)) =
                DublinBikesFetcher.lastFetchTime
                  (DublinBikesFetcher.stats w)).
  { intros key Hkey. induction ticks as [|t rest IH]; intros w.
    - cbn. repeat split; reflexivity.
    - cbn [DublinBikesFetcher.run_ticks].
      unfold DublinBikesFetcher.fetchDublinBikes.
      cbn [DublinBikesFetcher.JCDECAUX_API_KEY].
      destruct Hkey as [-> | ->];
        match goal with
        | |- context [DublinBikesFetcher.run_ticks ?k be rest ?w1] =>
            specialize (IH w1); cbv zeta in IH;
            destruct (DublinBikesFetcher.run_ticks k be rest w1)
              as [results w2]
        end;
        cbn [fst snd] in *;
        destruct IH as [Hres [Hreq [Hfs [Hcount Htime]]]];
        rewrite Hres, Hreq, Hfs, Hcount, Htime; cbn;
        repeat split; reflexivity. }
  intros w. repeat constructor; apply H; auto.
Qed.

(** X11. Started from the state of a fresh process, the poller keeps
    [lastFetchTime] null exactly as long as [fetchCount] is 0, and after
    its first fetch the status is never again "Not started": it is
    "Error: " followed by the message of the error, or "Success: "
    followed by a number of stations and " stations". *)
Theorem startDublinBikesFetcher_stats :
  forall (key : option string) (be : FirebaseConfig.Backend)
         (first : DublinBikesFetcher.Tick)
         (scheduled : list DublinBikesFetcher.Tick),
    let s :=
      DublinBikesFetcher.stats
        (snd (DublinBikesFetcher.startDublinBikesFetcher key be first
                scheduled DublinBikesFetcher.initial_world)) in
    (DublinBikesFetcher.fetchCount s = 0%nat /\
     DublinBikesFetcher.lastFetchTime s = None \/
     (0 < DublinBikesFetcher.fetchCount s)%nat /\
     exists t, DublinBikesFetcher.lastFetchTime s = Some t) /\
    ((exists e, DublinBikesFetcher.lastFetchStatus s = "Error: " ++ e) \/
     (exists n : nat,
        DublinBikesFetcher.lastFetchStatus s =
        "Success: " ++ Js.string_of_Z (Z.of_nat n) ++ " stations")) /\
    DublinBikesFetcher.lastFetchStatus s <> "Not started".
Proof.
  intros key be first scheduled.
  unfold DublinBikesFetcher.startDublinBikesFetcher.
  set (I := fun s : DublinBikesFetcher.Stats =>
              DublinBikesFetcher.fetchCount s = 0%nat /\
              DublinBikesFetcher.lastFetchTime s = None \/
              (0 < DublinBikesFetcher.fetchCount s)%nat /\
              exists t, DublinBikesFetcher.lastFetchTime s = Some t).
  set (J := fun s : DublinBikesFetcher.Stats =>
              (exists e,
                 DublinBikesFetcher.lastFetchStatus s = "Error: " ++ e) \/
              (exists n : nat,
                 DublinBikesFetcher.lastFetchStatus s =
                 "Success: " ++ Js.string_of_Z (Z.of_nat n) ++ " stations")).
  assert (Hstep : forall t w,
            I (DublinBikesFetcher.stats w) ->
            let w' :=
              snd (DublinBikesFetcher.fetchDublinBikes
                     {| DublinBikesFetcher.JCDECAUX_API_KEY := key;
                        DublinBikesFetcher.upstream :=
                          DublinBikesFetcher.tick_upstream t |}
                     be (DublinBikesFetcher.tick_now_batch t)
                     (DublinBikesFetcher.tick_now_done t) w) in
            I (DublinBikesFetcher.stats w') /\
            J (DublinBikesFetcher.stats w')).
  { intros t w HI.
    destruct (tick_stats_invariant key be t w) as [_ [Hlink HJ]].
    cbv zeta in *. split; [|exact HJ].
    destruct Hlink as [[Hc Ht]|[Hpos Ht]].
    - unfold I in *. rewrite Hc, Ht. exact HI.
    - right. split; [exact Hpos|]. eexists. exact Ht. }
  assert (Hrun : forall ticks w,
            I (DublinBikesFetcher.stats w) ->
            J (DublinBikesFetcher.stats w) ->
            I (DublinBikesFetcher.stats
                 (snd (DublinBikesFetcher.run_ticks key be ticks w))) /\
            J (DublinBikesFetcher.stats
                 (snd (DublinBikesFetcher.run_ticks key be ticks w)))).
  { induction ticks as [|t rest IH]; intros w HI HJ; [split; assumption|].
    cbn [DublinBikesFetcher.run_ticks].
    destruct (Hstep t w HI) as [HI1 HJ1]. cbv zeta in HI1, HJ1.
    destruct (DublinBikesFetcher.fetchDublinBikes _ be _ _ w)
      as [result w1].
    cbn [snd] in HI1, HJ1. specialize (IH w1 HI1 HJ1).
    destruct (DublinBikesFetcher.run_ticks key be rest w1)
      as [results w2].
    exact IH. }
  cbn [DublinBikesFetcher.run_ticks].
  destruct (Hstep first DublinBikesFetcher.initial_world) as [HI1 HJ1].
  { left. split; reflexivity. }
  cbv zeta in HI1, HJ1.
  destruct (DublinBikesFetcher.fetchDublinBikes _ be _ _
              DublinBikesFetcher.initial_world) as [result w1].
  cbn [snd] in HI1, HJ1.
  destruct (Hrun scheduled w1 HI1 HJ1) as [HI2 HJ2].
  destruct (DublinBikesFetcher.run_ticks key be scheduled w1)
    as [results w2].
  cbn [snd] in *. split; [exact HI2|]. split; [exact HJ2|].
  destruct HJ2 as [[e He]|[n Hn]]; [rewrite He|rewrite Hn]; discriminate.
Qed.

(** X12. POST /api/dublin-bikes/fetch answers 200 exactly when the fetch
    it ran incremented [fetchCount], and then reports the number of
    stations the status line shows; otherwise it answers 500 with the
    error that the status line carries after "Error: ". *)
Theorem post_dublin_bikes_fetch_reports_the_tick :
  forall (env : DublinBikesFetcher.Environment) (be : FirebaseConfig.Backend)
         (now_batch now_done : Z) (w : DublinBikesFetcher.World),
    let r := Server.post_dublin_bikes_fetch env be now_batch now_done w in
    let s := DublinBikesFetcher.stats w in
    let s' := DublinBikesFetcher.stats (snd r) in
    (exists n,
       fst r =
         Server.json_response 200
           [("success", Js.VBool true);
            ("message", Js.VStr "Fetch completed successfully");
            ("stationsCount", Js.VNum (Z.of_nat n))] /\
       DublinBikesFetcher.fetchCount s' =
         S (DublinBikesFetcher.fetchCount s) /\
       DublinBikesFetcher.lastFetchStatus s' =
         "Success: " ++ Js.string_of_Z (Z.of_nat n) ++ " stations") \/
    (exists e,
       fst r =
         Server.json_response 500
           [("success", Js.VBool false); ("error", Js.VStr e)] /\
       DublinBikesFetcher.fetchCount s' = DublinBikesFetcher.fetchCount s /\
       DublinBikesFetcher.lastFetchStatus s' = "Error: " ++ e).
Proof.
  intros env be nb nd w r s s'. subst r s s'.
  unfold Server.post_dublin_bikes_fetch, DublinBikesFetcher.triggerManualFetch.
  destruct (fetchDublinBikes_outcome be env nb nd w) as [_ H].
  cbv zeta in H.
  destruct (DublinBikesFetcher.fetchDublinBikes env be nb nd w)
    as [result w'].
  cbn [fst snd] in *.
  destruct H as [[k [response [stations [ts H]]]]|[e [Hres [Hst _]]]].
  - destruct H as [_ [_ [_ [_ [_ [Hres [Hst _]]]]]]]. subst result.
    left. exists (List.length ts). cbn. rewrite Hst. cbn.
    repeat split; reflexivity.
  - subst result. right. exists e. cbn. rewrite Hst. cbn.
    repeat split; reflexivity.
Qed.

(** ** The session routes over sequences of requests *)

Section Routes.

Import Server.

Variable be : FirebaseConfig.Backend.

(** The export never changes the state. *)
Lemma get_download_state st : snd (get_download st) = st.
Proof.
  unfold get_download.
  destruct (Nat.eqb (List.length (sensorData st)) 0); [reflexivity|].
  cbv zeta.
  destruct (sort_by_timestamp (sensorData st)) as [|first rest];
    [reflexivity|].
  destruct (append_rows _ _ _); reflexivity.
Qed.

(** What one request does to the buffer and to the session identifier. *)
Lemma handle_state req st fs :
  let st' := snd (fst (handle be req st fs)) in
  match req with
  | StartSession now =>
      st' = {| sensorData := []; sessionId := Some (Js.string_of_Z now) |}
  | _ =>
      sensorData st' = (sensorData st ++ posted req)%list /\
      sessionId st' = sessionId st
  end.
Proof.
  destruct req as [now|data| | |]; cbn [handle posted].
  - reflexivity.
  - pose proof (post_data_buffer be data st fs) as H.
    destruct (post_data be data st fs) as [[[resp log] st1] fs1].
    exact H.
  - cbn. rewrite app_nil_r. split; reflexivity.
  - pose proof (get_download_state st) as H.
    destruct (get_download st) as [resp st1]. cbn in *. subst st1.
    rewrite app_nil_r. split; reflexivity.
  - cbn. rewrite app_nil_r. split; reflexivity.
Qed.

Lemma append_rows_invalid startTime p points : forall csv,
  In p points ->
  Js.toISOString (timestamp p) = None ->
  append_rows startTime points csv = None.
Proof.
  induction points as [|q rest IH]; intros csv Hin Hbad; [contradiction|].
  cbn [append_rows]. unfold row at 1.
  destruct Hin as [->|Hin].
  - rewrite Hbad. reflexivity.
  - destruct (Js.toISOString (timestamp q)); [|reflexivity].
    apply IH; assumption.
Qed.

(** Two lists sorted by timestamp that hold the same records, no two of
    them with the same timestamp, are the same list. *)
Lemma sorted_by_timestamp_unique l1 : forall l2,
  StronglySorted by_timestamp l1 ->
  StronglySorted by_timestamp l2 ->
  Permutation l1 l2 ->
  NoDup (map timestamp l1) ->
  l1 = l2.
Proof.
  induction l1 as [|a l1 IH]; intros l2 Hs1 Hs2 Hperm Hnd.
  - apply Permutation_nil in Hperm. subst. reflexivity.
  - destruct l2 as [|b l2].
    { apply Permutation_sym, Permutation_nil in Hperm. discriminate. }
    inversion Hs1 as [|? ? Hs1' Ha]; subst.
    inversion Hs2 as [|? ? Hs2' Hb]; subst.
    inversion Hnd as [|? ? Hnotin Hnd']; subst.
    assert (Hab : a = b).
    { assert (Hina : In a (b :: l2))
        by (eapply Permutation_in; [exact Hperm|left; reflexivity]).
      assert (Hinb : In b (a :: l1))
        by (eapply Permutation_in;
            [symmetry; exact Hperm|left; reflexivity]).
      destruct Hina as [Heq|Hina]; [symmetry; exact Heq|].
      destruct Hinb as [Heq|Hinb]; [exact Heq|].
      rewrite Forall_forall in Ha, Hb.
      specialize (Ha b Hinb). specialize (Hb a Hina).
      unfold by_timestamp in Ha, Hb.
      exfalso. apply Hnotin.
      replace (timestamp a) with (timestamp b) by lia.
      apply in_map, Hinb. }
    subst b. f_equal. apply IH; try assumption.
    eapply Permutation_cons_inv. exact Hperm.
Qed.

End Routes.

(** X13. After any sequence of requests to the session routes (starts,
    posts, counts, downloads, stops, in any order and with any [data]
    fields), the session identifier is that of the last start and the
    buffer holds exactly the arrays posted since that start, in order;
    without a start in the sequence, the identifier is unchanged and the
    arrays posted are added after what the buffer held.  Stops, counts and
    downloads change nothing. *)
Theorem run_state_since_last_start :
  forall (be : FirebaseConfig.Backend) (reqs : list Server.Request)
         (st : Server.State) (fs : FirebaseConfig.Firestore),
    let st' := snd (fst (Server.run be reqs st fs)) in
    match Server.after_last_start reqs with
    | Some (now, tail) =>
        Server.sessionId st' = Some (Js.string_of_Z now) /\
        Server.sensorData st' = List.concat (map Server.posted tail)
    | None =>
        Server.sessionId st' = Server.sessionId st /\
        Server.sensorData st' =
          (Server.sensorData st ++ List.concat (map Server.posted reqs))%list
    end.
Proof.
  intros be reqs. induction reqs as [|req rest IH]; intros st fs.
  - cbn. rewrite app_nil_r. split; reflexivity.
  - cbn [Server.run Server.after_last_start].
    pose proof (handle_state be req st fs) as Hone. cbv zeta in Hone.
    destruct (Server.handle be req st fs) as [[resp st1] fs1].
    specialize (IH st1 fs1). cbv zeta in IH.
    destruct (Server.run be rest st1 fs1) as [[resps st2] fs2].
    cbn [fst snd] in *.
    destruct (Server.after_last_start rest) as [[now tail]|].
    + exact IH.
    + destruct IH as [Hid Hdata].
      destruct req as [now|data| | |]; cbn [map List.concat].
      1: subst st1; cbn in Hid, Hdata; split; assumption.
      all: destruct Hone as [H1 H2];
           rewrite Hid, Hdata, H1, H2, app_assoc; split; reflexivity.
Qed.

(** X14. The Firestore integration leaves the in-memory service as it was:
    for every sequence of requests and whatever Firestore does, the server
    ends in the state the original server ends in, and answers each
    request as the original server does, up to two properties of the
    answer to POST /api/data: [storedToCloud], which is new, and
    [totalPoints], which the new handler reads only after it has awaited
    Firestore. *)
Theorem run_refines_original_server :
  forall (be : FirebaseConfig.Backend) (reqs : list Server.Request)
         (st : Server.State) (fs : FirebaseConfig.Firestore),
    let r := Server.run be reqs st fs in
    snd (OriginalServer.run reqs st) = snd (fst r) /\
    map (Server.without "totalPoints") (fst (OriginalServer.run reqs st)) =
      map (fun resp =>
             Server.without "totalPoints"
               (Server.without "storedToCloud" resp))
        (fst (fst r)).
Proof.
  intros be reqs. induction reqs as [|req rest IH]; intros st fs;
    [split; reflexivity|].
  cbn [Server.run OriginalServer.run].
  assert (Hone : OriginalServer.handle req st =
                 (Server.without "storedToCloud"
                    (fst (fst (Server.handle be req st fs))),
                  snd (fst (Server.handle be req st fs)))).
  { destruct req as [now|data| | |]; cbn [Server.handle OriginalServer.handle].
    - reflexivity.
    - unfold OriginalServer.post_data, Server.post_data.
      destruct (negb (Server.data_truthy data) || negb (Server.isArray data));
        [reflexivity|].
      cbv zeta.
      destruct (FirebaseConfig.addSensorDataBatch be fs _) as [res fs1].
      reflexivity.
    - reflexivity.
    - unfold Server.get_download.
      destruct (Nat.eqb (List.length (Server.sensorData st)) 0);
        [reflexivity|].
      cbv zeta.
      destruct (Server.sort_by_timestamp (Server.sensorData st));
        [reflexivity|].
      destruct (Server.append_rows _ _ _); reflexivity.
    - reflexivity. }
  destruct (Server.handle be req st fs) as [[resp st1] fs1].
  cbn [fst snd] in Hone. rewrite Hone.
  specialize (IH st1 fs1). cbv zeta in IH. destruct IH as [IHst IHresp].
  destruct (OriginalServer.run rest st1) as [resps0 st0].
  destruct (Server.run be rest st1 fs1) as [[resps st2] fs2].
  cbn [fst snd map] in *. split; [exact IHst|].
  rewrite IHresp. reflexivity.
Qed.

(** X15. GET /api/data/download answers 404 "No data available" exactly
    when the buffer is empty, and so right after every session start,
    whatever the buffer held before; with a non-empty buffer the answer is
    never 404. *)
Theorem get_download_404_iff_empty :
  forall (st : Server.State) (now : Z),
    match Server.sensorData st with
    | [] =>
        fst (Server.get_download st) =
          Server.json_response 404
            [("success", Js.VBool false);
             ("error", Js.VStr "No data available")]
    | _ :: _ =>
        Server.status_code (fst (Server.get_download st)) = 200 \/
        Server.status_code (fst (Server.get_download st)) = 500
    end /\
    fst (Server.get_download (snd (Server.post_session_start now st))) =
      Server.json_response 404
        [("success", Js.VBool false); ("error", Js.VStr "No data available")].
Proof.
  intros st now. split; [|reflexivity].
  unfold Server.get_download.
  destruct (Server.sensorData st) as [|x l]; [reflexivity|].
  cbn [List.length Nat.eqb]. cbv zeta.
  destruct (Server.sort_by_timestamp (x :: l)); [right; reflexivity|].
  destruct (Server.append_rows _ _ _); [left|right]; reflexivity.
Qed.

(** X16. One record whose timestamp a [Date] cannot hold (beyond
    8.64e15 ms either way) makes the export fail: as long as the buffer
    holds it, GET /api/data/download answers 500 "Internal server error",
    whatever the other records are, and leaves the buffer as it is. *)
Theorem get_download_fails_on_invalid_timestamp :
  forall (st : Server.State) (p : SensorRecord),
    In p (Server.sensorData st) ->
    Js.max_time_value < Z.abs (timestamp p) ->
    Server.get_download st = (Server.internal_server_error, st).
Proof.
  intros st p Hin Hbad.
  pose proof (sort_by_timestamp_perm (Server.sensorData st)) as Hperm.
  unfold Server.get_download.
  destruct (Server.sensorData st) as [|x l] eqn:Hdata; [contradiction|].
  cbn [List.length Nat.eqb]. cbv zeta.
  destruct (Server.sort_by_timestamp (x :: l)) as [|first rest] eqn:Hsort;
    [reflexivity|].
  rewrite (append_rows_invalid _ p); [reflexivity| |].
  - eapply Permutation_in; [symmetry; exact Hperm|exact Hin].
  - unfold Js.toISOString.
    destruct (Z.ltb_spec Js.max_time_value (Z.abs (timestamp p)));
      [reflexivity|lia].
Qed.

Lemma get_download_fails_on_invalid_timestamp_witness :
  Server.get_download
    {| Server.sensorData :=
         [Samples.bare 1000; Samples.bare 8640000000000001;
          Samples.bare 500];
       Server.sessionId := None |} =
    (Server.internal_server_error,
     {| Server.sensorData :=
          [Samples.bare 1000; Samples.bare 8640000000000001;
           Samples.bare 500];
        Server.sessionId := None |}).
Proof.
  apply (get_download_fails_on_invalid_timestamp
           {| Server.sensorData :=
                [Samples.bare 1000; Samples.bare 8640000000000001;
                 Samples.bare 500];
              Server.sessionId := None |}
           (Samples.bare 8640000000000001)).
  - right. left. reflexivity.
  - reflexivity.
Defined.

(** X17. The export does not depend on the order in which the records
    arrived: two buffers that hold the same records, no two of them with
    the same timestamp, give the same response in the same session. *)
Theorem get_download_ignores_arrival_order :
  forall (st1 st2 : Server.State),
    Permutation (Server.sensorData st1) (Server.sensorData st2) ->
    NoDup (map timestamp (Server.sensorData st1)) ->
    Server.sessionId st1 = Server.sessionId st2 ->
    fst (Server.get_download st1) = fst (Server.get_download st2).
Proof.
  intros st1 st2 Hperm Hnd Hid.
  assert (Hsort : Server.sort_by_timestamp (Server.sensorData st1) =
                  Server.sort_by_timestamp (Server.sensorData st2)).
  { apply sorted_by_timestamp_unique.
    - apply sort_by_timestamp_sorted.
    - apply sort_by_timestamp_sorted.
    - rewrite !sort_by_timestamp_perm. exact Hperm.
    - eapply Permutation_NoDup; [|exact Hnd].
      apply Permutation_map. symmetry. apply sort_by_timestamp_perm. }
  unfold Server.get_download.
  rewrite (Permutation_length Hperm), Hsort, Hid.
  destruct (Nat.eqb (List.length (Server.sensorData st2)) 0); [reflexivity|].
  cbv zeta.
  destruct (Server.sort_by_timestamp (Server.sensorData st2));
    [reflexivity|].
  destruct (Server.append_rows _ _ _); reflexivity.
Qed.

Lemma get_download_ignores_arrival_order_witness :
  fst (Server.get_download
         {| Server.sensorData :=
              [Samples.bare 2000; Samples.standing_still;
               Samples.bare 500];
            Server.sessionId := Some "1700000000000" |}) =
  fst (Server.get_download
         {| Server.sensorData :=
              [Samples.bare 500; Samples.bare 2000;
               Samples.standing_still];
            Server.sessionId := Some "1700000000000" |}).
Proof.
  apply get_download_ignores_arrival_order.
  - cbn. apply Permutation_sym.
    apply (Permutation_cons_app [Samples.bare 2000; Samples.standing_still]
             [] (Samples.bare 500)).
    rewrite app_nil_r. reflexivity.
  - cbn. repeat constructor; cbn; intuition discriminate.
  - reflexivity.
Defined.

(** ** The shape of the exported CSV *)

Section CsvShape.

Import Server.

Lemma no_separator_app a b :
  no_separator (a ++ b) = no_separator a && no_separator b.
Proof.
  induction a as [|c a IH]; [reflexivity|].
  cbn [append no_separator]. rewrite IH, andb_assoc. reflexivity.
Qed.

Lemma no_separator_cons c s :
  no_separator (String c s) = negb (is_separator c) && no_separator s.
Proof. reflexivity. Qed.

Lemma no_separator_uint d : no_separator (NilEmpty.string_of_uint d) = true.
Proof.
  induction d as [|d IH|d IH|d IH|d IH|d IH|d IH|d IH|d IH|d IH|d IH];
    [reflexivity|..];
    cbn [NilEmpty.string_of_uint no_separator]; rewrite IH; reflexivity.
Qed.

Lemma no_separator_nzuint d : no_separator (NilZero.string_of_uint d) = true.
Proof.
  destruct d; try apply no_separator_uint. reflexivity.
Qed.

Lemma no_separator_Z z : no_separator (Js.string_of_Z z) = true.
Proof.
  unfold Js.string_of_Z, NilZero.string_of_int.
  destruct (Z.to_int z) as [d|d].
  - apply no_separator_nzuint.
  - cbn [no_separator]. rewrite no_separator_nzuint. reflexivity.
Qed.

Lemma no_separator_N n : no_separator (Js.string_of_N n) = true.
Proof. apply no_separator_nzuint. Qed.

Lemma no_separator_zeros n : no_separator (Js.repeat_char "0"%char n) = true.
Proof. induction n as [|n IH]; [reflexivity|]. cbn. exact IH. Qed.

Lemma no_separator_pad width s :
  no_separator s = true -> no_separator (Js.pad_start width s) = true.
Proof.
  intros H. unfold Js.pad_start.
  rewrite no_separator_app, no_separator_zeros, H. reflexivity.
Qed.

Lemma no_separator_substring s : forall n m,
  no_separator s = true -> no_separator (substring n m s) = true.
Proof.
  induction s as [|c s IH]; intros n m H.
  - destruct n, m; reflexivity.
  - cbn [no_separator] in H. apply andb_true_iff in H. destruct H as [Hc Hs].
    destruct n as [|n].
    + destruct m as [|m]; [reflexivity|].
      cbn [substring no_separator]. rewrite Hc, (IH 0%nat m Hs). reflexivity.
    + cbn [substring]. apply IH, Hs.
Qed.

Lemma no_separator_rev_acc s : forall acc,
  no_separator s = true -> no_separator acc = true ->
  no_separator (Js.string_rev_acc s acc) = true.
Proof.
  induction s as [|c s IH]; intros acc Hs Hacc; [exact Hacc|].
  cbn [no_separator] in Hs. apply andb_true_iff in Hs. destruct Hs as [Hc Hs].
  cbn [Js.string_rev_acc]. apply IH; [exact Hs|].
  cbn [no_separator]. rewrite Hc, Hacc. reflexivity.
Qed.

Lemma no_separator_drop_leading s :
  no_separator s = true -> no_separator (Js.drop_leading_zeros s) = true.
Proof.
  induction s as [|c s IH]; intros H; [reflexivity|].
  cbn [no_separator] in H. pose proof H as H'.
  apply andb_true_iff in H'. destruct H' as [_ Hs].
  cbn [Js.drop_leading_zeros].
  destruct c as [[|] [|] [|] [|] [|] [|] [|] [|]];
    try exact H; apply IH, Hs.
Qed.

Lemma no_separator_drop_trailing s :
  no_separator s = true -> no_separator (Js.drop_trailing_zeros s) = true.
Proof.
  intros H. unfold Js.drop_trailing_zeros, Js.string_rev.
  apply no_separator_rev_acc; [|reflexivity].
  apply no_separator_drop_leading.
  apply no_separator_rev_acc; [exact H|reflexivity].
Qed.

Lemma no_separator_number x : no_separator (Js.number_to_string x) = true.
Proof.
  unfold Js.number_to_string.
  destruct (N.eqb (Js.digits x) 0); [reflexivity|]. cbv zeta.
  assert (Hs : no_separator
                 (Js.drop_trailing_zeros (Js.string_of_N (Js.digits x))) =
               true)
    by (apply no_separator_drop_trailing, no_separator_N).
  destruct (Js.negative x);
    repeat match goal with
           | |- context [if ?b then _ else _] => destruct b
           end;
    repeat first
      [ rewrite no_separator_app
      | rewrite no_separator_cons
      | rewrite Hs
      | rewrite no_separator_zeros
      | rewrite no_separator_Z
      | rewrite no_separator_substring by exact Hs ];
    reflexivity.
Qed.

Lemma no_separator_cell field : no_separator (cell field) = true.
Proof.
  unfold cell. destruct field as [x|]; [|reflexivity].
  destruct (Js.number_truthy x); [apply no_separator_number|reflexivity].
Qed.

Lemma no_separator_to_fixed_3 ms : no_separator (Js.to_fixed_3 ms) = true.
Proof.
  unfold Js.to_fixed_3. cbv zeta.
  destruct (ms <? 0);
    repeat first
      [ rewrite no_separator_app
      | rewrite no_separator_cons
      | rewrite no_separator_Z
      | rewrite no_separator_pad by apply no_separator_Z ];
    reflexivity.
Qed.

Lemma no_separator_iso_string t : no_separator (Js.iso_string t) = true.
Proof.
  unfold Js.iso_string. cbv zeta.
  destruct (Js.civil_from_days (t / Js.ms_per_day)) as [[y m] d].
  assert (Hy : no_separator (Js.iso_year y) = true).
  { unfold Js.iso_year.
    destruct ((0 <=? y) && (y <=? 9999));
      [apply no_separator_pad, no_separator_Z|].
    destruct (y <? 0);
      repeat first
        [ rewrite no_separator_app
        | rewrite no_separator_cons
        | rewrite no_separator_pad by apply no_separator_Z ];
      reflexivity. }
  repeat first
    [ rewrite no_separator_app
    | rewrite no_separator_cons
    | rewrite Hy
    | rewrite no_separator_pad by apply no_separator_Z ];
  reflexivity.
Qed.

(** A row has thirteen cells, none with a comma or a line feed in it. *)
Lemma cells_of_shape startTime point :
  List.length (cells_of startTime point) = 13%nat /\
  forallb no_separator (cells_of startTime point) = true.
Proof.
  split; [reflexivity|].
  unfold cells_of. cbn [forallb].
  rewrite no_separator_Z, no_separator_iso_string, no_separator_to_fixed_3,
    !no_separator_cell.
  reflexivity.
Qed.

(** The export of a non-empty buffer of records with valid timestamps. *)
Lemma get_download_valid st :
  sensorData st <> [] ->
  Forall (fun p => valid_timestamp (timestamp p) = true) (sensorData st) ->
  exists first rest,
    sort_by_timestamp (sensorData st) = first :: rest /\
    get_download st =
      ({| status_code := 200;
          headers :=
            [("Content-Type", "text/csv");
             ("Content-Disposition",
              "attachment; filename=sensor_data_" ++
              Js.template (session_value (sessionId st)) ++ ".csv")];
          body :=
            TextBody
              (csv_lines
                 (headers_row ::
                  map (cells_of (timestamp first)) (first :: rest))) |},
       st).
Proof.
  intros Hne Hvalid.
  pose proof (sort_by_timestamp_perm (sensorData st)) as Hperm.
  unfold get_download.
  destruct (sensorData st) as [|x l] eqn:Hdata; [contradiction|].
  cbn [List.length Nat.eqb]. cbv zeta.
  destruct (sort_by_timestamp (x :: l)) as [|first rest] eqn:Hsort.
  { apply Permutation_nil in Hperm. discriminate. }
  exists first, rest. split; [reflexivity|].
  rewrite append_rows_valid.
  - cbn [csv_lines]. rewrite string_app_assoc. reflexivity.
  - eapply Permutation_Forall; [symmetry; exact Hperm|exact Hvalid].
Qed.

End CsvShape.

(** X18. The exported CSV is rectangular: for a non-empty buffer of records
    with valid timestamps the body is the header line followed by one line
    per record, every line is thirteen cells joined by commas and ended by
    a line feed, and no cell contains a comma or a line feed. *)
Theorem get_download_csv_is_rectangular :
  forall st : Server.State,
    Server.sensorData st <> [] ->
    Forall (fun p => Server.valid_timestamp (timestamp p) = true)
      (Server.sensorData st) ->
    exists rows,
      Server.body_text (fst (Server.get_download st)) =
        Server.csv_lines (Server.headers_row :: rows) /\
      List.length rows = List.length (Server.sensorData st) /\
      Forall (fun cells =>
                List.length cells = 13%nat /\
                forallb Server.no_separator cells = true)
        (Server.headers_row :: rows).
Proof.
  intros st Hne Hvalid.
  destruct (get_download_valid st Hne Hvalid) as [first [rest [Hsort Hget]]].
  exists (map (Server.cells_of (timestamp first)) (first :: rest)).
  rewrite Hget. split; [reflexivity|]. split.
  - rewrite length_map, <- Hsort.
    apply Permutation_length, sort_by_timestamp_perm.
  - constructor; [split; reflexivity|].
    apply Forall_map, Forall_forall. intros p _. apply cells_of_shape.
Qed.

Lemma get_download_csv_is_rectangular_witness :
  exists rows,
    Server.body_text
      (fst (Server.get_download
              {| Server.sensorData :=
                   [Samples.bare 2000; Samples.standing_still];
                 Server.sessionId := None |})) =
      Server.csv_lines (Server.headers_row :: rows) /\
    List.length rows = 2%nat /\
    Forall (fun cells =>
              List.length cells = 13%nat /\
              forallb Server.no_separator cells = true)
      (Server.headers_row :: rows).
Proof.
  apply (get_download_csv_is_rectangular
           {| Server.sensorData :=
                [Samples.bare 2000; Samples.standing_still];
              Server.sessionId := None |}).
  - discriminate.
  - repeat constructor.
Defined.



(** X20. For a station that comes with its position, the transformation
    keeps number, name, address and position; the defaults of the flags and
    of the three counts lose nothing (a missing flag is stored as false and
    a missing count as 0, a present one as it is); a status that is missing
    or empty is stored as "UNKNOWN" and any other status as it is; a
    [last_update] that is missing or 0 is stored as null and any other as
    it is.  So no stored status is empty and no stored [last_update] is
    0. *)
Theorem transform_defaults :
  forall (station : UpstreamStation) (p : Position),
    up_position station = Some p ->
    exists t,
      DublinBikesFetcher.transform station = Normal t /\
      station_number t = up_number station /\
      station_name t = up_name station /\
      address t = up_address station /\
      position t = p /\
      banking t =
        match up_banking station with Some b => b | None => false end /\
      bonus t =
        match up_bonus station with Some b => b | None => false end /\
      bike_stands t =
        match up_bike_stands station with Some n => n | None => 0 end /\
      available_bike_stands t =
        match up_available_bike_stands station with
        | Some n => n
        | None => 0
        end /\
      available_bikes t =
        match up_available_bikes station with Some n => n | None => 0 end /\
      (up_status station = None \/ up_status station = Some "" ->
       status t = "UNKNOWN") /\
      (forall s, up_status station = Some s -> s <> "" -> status t = s) /\
      status t <> "" /\
      (up_last_update station = None \/ up_last_update station = Some 0 ->
       last_update t = None) /\
      (forall u, up_last_update station = Some u -> u <> 0 ->
                 last_update t = Some u) /\
      last_update t <> Some 0.
Proof.
  intros station p Hp. unfold DublinBikesFetcher.transform. rewrite Hp.
  eexists. split; [reflexivity|]. cbn.
  assert (Hint : forall x : option Z,
            DublinBikesFetcher.int_or x 0 =
            match x with Some n => n | None => 0 end).
  { intros [n|]; [|reflexivity]. unfold DublinBikesFetcher.int_or.
    destruct (Z.eqb_spec n 0); [symmetry; assumption|reflexivity]. }
  assert (Hbool : forall x : option bool,
            DublinBikesFetcher.bool_or x false =
            match x with Some b => b | None => false end).
  { intros [[|]|]; reflexivity. }
  rewrite !Hint, !Hbool.
  repeat (split; [reflexivity|]).
  split; [destruct p; reflexivity|].
  repeat (split; [reflexivity|]).
  unfold DublinBikesFetcher.string_or.
  assert (Hstatus :
    (up_status station = None \/ up_status station = Some "" ->
     match up_status station with
     | Some s => if String.eqb s "" then "UNKNOWN" else s
     | None => "UNKNOWN"
     end = "UNKNOWN") /\
    (forall s, up_status station = Some s -> s <> "" ->
     match up_status station with
     | Some s => if String.eqb s "" then "UNKNOWN" else s
     | None => "UNKNOWN"
     end = s) /\
    match up_status station with
    | Some s => if String.eqb s "" then "UNKNOWN" else s
    | None => "UNKNOWN"
    end <> "").
  { destruct (up_status station) as [st|].
    - destruct (String.eqb_spec st "") as [->|Hne].
      + split; [reflexivity|]. split; [|discriminate].
        intros s Hs Hne. congruence.
      + split; [intros [H|H]; congruence|].
        split; [intros s Hs _; congruence|exact Hne].
    - split; [reflexivity|]. split; [|discriminate].
      intros s Hs. discriminate Hs. }
  assert (Hupdate :
    (up_last_update station = None \/ up_last_update station = Some 0 ->
     match up_last_update station with
     | Some t => if t =? 0 then None else Some t
     | None => None
     end = None) /\
    (forall u, up_last_update station = Some u -> u <> 0 ->
     match up_last_update station with
     | Some t => if t =? 0 then None else Some t
     | None => None
     end = Some u) /\
    match up_last_update station with
    | Some t => if t =? 0 then None else Some t
    | None => None
    end <> Some 0).
  { destruct (up_last_update station) as [u|].
    - destruct (Z.eqb_spec u 0) as [->|Hu].
      + split; [reflexivity|]. split; [|discriminate].
        intros u Hu Hne. congruence.
      + split; [intros [H|H]; congruence|].
        split; [intros u' Hu' _; congruence|congruence].
    - split; [reflexivity|]. split; [|discriminate].
      intros u Hu. discriminate Hu. }
  destruct Hstatus as [Hs1 [Hs2 Hs3]].
  destruct Hupdate as [Hu1 [Hu2 Hu3]].
  repeat split; assumption.
Qed.

(** A station sent with an empty status, a [last_update] of 0, no
    [banking] flag and no number of stands is stored with the status
    "UNKNOWN", a null [last_update], [banking] false and 0 stands, while
    its [bonus] flag and its 8 available bikes are kept. *)
Lemma transform_defaults_witness :
  exists t,
    DublinBikesFetcher.transform Samples.sparse_station = Normal t /\
    station_number t = 9 /\
    banking t = false /\
    bonus t = true /\
    bike_stands t = 0 /\
    available_bike_stands t = 0 /\
    available_bikes t = 8 /\
    status t = "UNKNOWN" /\
    last_update t = None.
Proof.
  destruct (transform_defaults Samples.sparse_station
              {| lat := Samples.decimal 533498 (-4);
                 lng := Samples.decimal 62603 (-4) |} eq_refl)
    as [t [Ht [Hnum [_ [_ [_ [Hbank [Hbonus [Hstands [Havail [Hbikes
         [Hst [_ [_ [Hlu _]]]]]]]]]]]]]]].
  exists t. split; [exact Ht|]. split; [exact Hnum|].
  split; [exact Hbank|]. split; [exact Hbonus|].
  split; [exact Hstands|]. split; [exact Havail|]. split; [exact Hbikes|].
  split; [apply Hst; right; reflexivity|apply Hlu; right; reflexivity].
Defined.

(** ** The export on every buffer a [Date] can print *)

Section CsvExportRange.

Import Server.

Lemma toISOString_time_value t :
  time_value t = true -> Js.toISOString t = Some (Js.iso_string t).
Proof.
  unfold time_value, Js.toISOString. intros H. apply Z.leb_le in H.
  destruct (Z.ltb_spec Js.max_time_value (Z.abs t)); [lia|reflexivity].
Qed.

Lemma append_rows_time_values startTime points : forall csv,
  Forall (fun p => time_value (timestamp p) = true) points ->
  append_rows startTime points csv =
  Some (csv ++ csv_lines (map (cells_of startTime) points)).
Proof.
  induction points as [|p rest IH]; intros csv Hall.
  - cbn. f_equal. induction csv as [|c csv IHc]; cbn; congruence.
  - inversion Hall as [|? ? Hp Hrest]; subst.
    cbn [append_rows map csv_lines]. unfold row.
    rewrite (toISOString_time_value _ Hp).
    fold (cells_of startTime p).
    rewrite IH by exact Hrest.
    rewrite !string_app_assoc. reflexivity.
Qed.

(** The digits [toFixed(3)] prints for a distance that is not negative:
    the whole seconds, a point, and the milliseconds left on three
    digits. *)
Lemma to_fixed_3_digits d :
  0 <= d ->
  Js.to_fixed_3 d =
  Js.string_of_Z (d / 1000) ++ "." ++
  Js.pad_start 3 (Js.string_of_Z (d mod 1000)).
Proof.
  intros Hd. unfold Js.to_fixed_3. cbv zeta.
  rewrite (Z.abs_eq d Hd).
  destruct (Z.ltb_spec d 0); [lia|reflexivity].
Qed.

Lemma exportable_time_values points :
  exportable points = true ->
  Forall (fun p => time_value (timestamp p) = true) points.
Proof.
  unfold exportable. intros H. apply andb_true_iff in H.
  destruct H as [H _]. rewrite forallb_forall in H.
  apply Forall_forall. exact H.
Qed.

Lemma exportable_span points p q :
  exportable points = true -> In p points -> In q points ->
  timestamp q - timestamp p < exact_span.
Proof.
  unfold exportable. intros H Hp Hq. apply andb_true_iff in H.
  destruct H as [_ H]. rewrite forallb_forall in H.
  specialize (H p Hp). rewrite forallb_forall in H.
  apply Z.ltb_lt. exact (H q Hq).
Qed.

End CsvExportRange.

(** C4. For a non-empty buffer whose timestamps are time values a [Date]
    can hold (at most 8.64e15 milliseconds from 1970, before or after)
    and lie less than 2^43 seconds apart, GET /api/data/download answers
    200 with the header line followed by one line per record, the records
    taken in ascending order of timestamp (a permutation of the buffer,
    whatever the insertion order); the seconds-elapsed cell of each line
    is the distance [d], in milliseconds, to the smallest timestamp of the
    buffer, printed as the seconds [d / 1000], a point and the three
    digits of [d mod 1000], at a distance below 2^43 seconds, hence
    "0.000" on the first line; and the buffer is left as it was. *)
Theorem get_download_sorted_csv :
  forall st : Server.State,
    Server.sensorData st <> [] ->
    Server.exportable (Server.sensorData st) = true ->
    exists first rest,
      let sorted := first :: rest in
      let startTime := timestamp first in
      Permutation sorted (Server.sensorData st) /\
      StronglySorted Server.by_timestamp sorted /\
      Forall (fun p => startTime <= timestamp p) (Server.sensorData st) /\
      Server.status_code (fst (Server.get_download st)) = 200 /\
      Server.body_text (fst (Server.get_download st)) =
        Js.join "," Server.headers_row ++ Js.newline ++
        Server.csv_lines (map (Server.cells_of startTime) sorted) /\
      nth 2 (Server.cells_of startTime first) "" = "0.000" /\
      Forall
        (fun p =>
           let d := timestamp p - startTime in
           0 <= d < Server.exact_span /\
           nth 0 (Server.cells_of startTime p) "" =
             Js.string_of_Z (timestamp p) /\
           nth 2 (Server.cells_of startTime p) "" =
             Js.string_of_Z (d / 1000) ++ "." ++
             Js.pad_start 3 (Js.string_of_Z (d mod 1000)))
        sorted /\
      snd (Server.get_download st) = st.
Proof.
  intros st Hne Hexp.
  pose proof (sort_by_timestamp_perm (Server.sensorData st)) as Hperm.
  pose proof (sort_by_timestamp_sorted (Server.sensorData st)) as Hsorted.
  pose proof (exportable_time_values _ Hexp) as Hvalid.
  pose proof (fun p q => exportable_span _ p q Hexp) as Hspan.
  unfold Server.get_download.
  destruct (Server.sensorData st) as [|x l] eqn:Hdata; [contradiction|].
  cbn [List.length Nat.eqb]. cbv zeta.
  destruct (Server.sort_by_timestamp (x :: l)) as [|first rest] eqn:Hsort.
  { apply Permutation_nil in Hperm. discriminate. }
  exists first, rest. cbv zeta.
  assert (Hvalid' : Forall (fun p => Server.time_value (timestamp p) = true)
                      (first :: rest)).
  { eapply Permutation_Forall; [symmetry; exact Hperm|exact Hvalid]. }
  rewrite (append_rows_time_values _ _ _ Hvalid').
  assert (Hmin : Forall (fun p => timestamp first <= timestamp p)
                   (first :: rest)).
  { inversion Hsorted as [|? ? _ Hfirst]; subst.
    constructor; [lia|exact Hfirst]. }
  split; [exact Hperm|]. split; [exact Hsorted|].
  split; [eapply Permutation_Forall; [exact Hperm|exact Hmin]|].
  split; [reflexivity|].
  split; [cbn [fst Server.body_text Server.body];
          rewrite string_app_assoc; reflexivity|].
  split; [cbn [Server.cells_of nth]; rewrite Z.sub_diag; reflexivity|].
  split; [|reflexivity].
  apply Forall_forall. intros p Hp.
  assert (Hfirst_in : In first (x :: l))
    by (eapply Permutation_in; [exact Hperm|left; reflexivity]).
  assert (Hp_in : In p (x :: l))
    by (eapply Permutation_in; [exact Hperm|exact Hp]).
  rewrite Forall_forall in Hmin. specialize (Hmin p Hp).
  pose proof (Hspan first p Hfirst_in Hp_in) as Hlt.
  split; [lia|]. split; [reflexivity|].
  cbn [Server.cells_of nth]. apply to_fixed_3_digits. lia.
Qed.

(** The instance of the claim: readings with timestamps 1000 then 500 are
    exported with the line of 500 first, at "0.000", then the line of
    1000, at "0.500", and the buffer keeps its order. *)
Lemma get_download_sorted_csv_witness :
  let st :=
    {| Server.sensorData := [Samples.bare 1000; Samples.bare 500];
       Server.sessionId := Some "1700000000000" |} in
  Server.exportable (Server.sensorData st) = true /\
  Server.status_code (fst (Server.get_download st)) = 200 /\
  Server.body_text (fst (Server.get_download st)) =
    "timestamp,datetime,seconds_elapsed,latitude,longitude,altitude,speed,accuracy,heading,accel_x,accel_y,accel_z,accel_magnitude"
    ++ Js.newline ++
    "500,1970-01-01T00:00:00.500Z,0.000,,,,,,,,,," ++ Js.newline ++
    "1000,1970-01-01T00:00:01.000Z,0.500,,,,,,,,,," ++ Js.newline /\
  Server.sensorData (snd (Server.get_download st)) =
    [Samples.bare 1000; Samples.bare 500].
Proof.
  intros st.
  assert (Hne : Server.sensorData st <> []) by discriminate.
  assert (Hexp : Server.exportable (Server.sensorData st) = true)
    by reflexivity.
  destruct (get_download_sorted_csv st Hne Hexp) as [first [rest H]].
  cbv zeta in H.
  destruct H as [Hperm [Hsorted [_ [Hcode [Htext [_ [_ Hstate]]]]]]].
  assert (Hlist : [Samples.bare 500; Samples.bare 1000] = first :: rest).
  { apply sorted_by_timestamp_unique.
    - repeat constructor; unfold Server.by_timestamp; cbn; lia.
    - exact Hsorted.
    - rewrite Hperm. apply perm_swap.
    - cbn. repeat constructor; cbn; intuition discriminate. }
  split; [exact Hexp|]. split; [exact Hcode|].
  split; [|rewrite Hstate; reflexivity].
  rewrite Htext.
  injection Hlist as Hfirst Hrest. subst first rest.
  reflexivity.
Defined.

(** The export of a buffer that holds a timestamp no [Date] can print:
    [toISOString] throws in the row of that record, no CSV is sent, and the
    error middleware answers 500. *)
Lemma get_download_no_csv_beyond_date_range :
  let st :=
    {| Server.sensorData :=
         [Samples.bare 1000; Samples.bare 8640000000000001];
       Server.sessionId := Some "1700000000000" |} in
  Server.sensorData st <> [] /\
  Js.toISOString 8640000000000001 = None /\
  fst (Server.get_download st) = Server.internal_server_error /\
  Server.status_code (fst (Server.get_download st)) = 500 /\
  Server.body_text (fst (Server.get_download st)) = "".
Proof.
  cbv zeta. split; [discriminate|]. vm_compute. repeat split; reflexivity.
Qed.

(** Readings before 1970 are exported like the others. *)
Example get_download_before_1970 :
  Server.body_text
    (fst (Server.get_download
            {| Server.sensorData := [Samples.bare 1000; Samples.bare (-500)];
               Server.sessionId := None |})) =
  "timestamp,datetime,seconds_elapsed,latitude,longitude,altitude,speed,accuracy,heading,accel_x,accel_y,accel_z,accel_magnitude"
  ++ Js.newline ++
  "-500,1969-12-31T23:59:59.500Z,0.000,,,,,,,,,," ++ Js.newline ++
  "1000,1970-01-01T00:00:01.000Z,1.500,,,,,,,,,," ++ Js.newline.
Proof. vm_compute. reflexivity. Qed.
